(** * A shallow embedding of the task frequency scheduler (task.h / task.c)

    The scheduler is a singleton record of a tick counter, a pending flag,
    an overflow counter and a callback pointer per frequency slot.  The three
    entry points [task_tick], [task_handler] and [task_register_handler] are
    embedded as functions on that record; the calls that [task_handler]
    makes through the callback table are logged in a trace.

    task.c exists in two revisions in the repository (one keeps the state in
    a [task_scheduler_t] struct, the other in four separate globals); their
    function bodies are statement for statement the same, so one embedding
    covers both. *)

From Stdlib Require Import NArith Lia Sorted.
From Stdlib Require Ascii String.
From stdpp Require Import base list numbers.

Local Open Scope N_scope.

(* [lia] on [N.modulo]: turn mod/div into their euclidean equations. *)
Ltac Zify.zify_post_hook ::= Z.to_euclidean_division_equations.

(** ** task.h *)

(** [task_type_t] is an enum whose enumerators are 0..8; it is used as an
    array index and compared with [TASK_COUNT], so it is embedded as [nat]
    (the enum has no negative enumerator). *)
Definition task_type_t : Type := nat.

Definition TASK_1HZ   : task_type_t := 0%nat.
Definition TASK_2HZ   : task_type_t := 1%nat.
Definition TASK_5HZ   : task_type_t := 2%nat.
Definition TASK_10HZ  : task_type_t := 3%nat.
Definition TASK_20HZ  : task_type_t := 4%nat.
Definition TASK_50HZ  : task_type_t := 5%nat.
Definition TASK_100HZ : task_type_t := 6%nat.
Definition TASK_200HZ : task_type_t := 7%nat.
Definition TASK_COUNT : task_type_t := 8%nat.

(** [typedef void ( *task_handler_cb_t)(void)]: a function pointer, embedded
    as the address it holds; [NULL] is address 0. *)
Definition task_handler_cb_t : Type := N.
Definition NULL : task_handler_cb_t := 0.

(** ** task.c: macros *)

Definition TICK_1HZ   : N := 1000.
Definition TICK_2HZ   : N := 500.
Definition TICK_5HZ   : N := 200.
Definition TICK_10HZ  : N := 100.
Definition TICK_20HZ  : N := 50.
Definition TICK_50HZ  : N := 20.
Definition TICK_100HZ : N := 10.
Definition TICK_200HZ : N := 5.

(** Wrap-around of the two unsigned widths the state uses. *)
Definition wrap8  (x : N) : N := x mod 2 ^ 8.
Definition wrap32 (x : N) : N := x mod 2 ^ 32.

(** ** task.c: types and private variables *)

Record task_scheduler_t : Type := mk_scheduler {
  tick_count     : N;                        (* uint32_t *)
  flags          : list N;                   (* volatile uint8_t [TASK_COUNT] *)
  overflow_count : list N;                   (* uint8_t [TASK_COUNT] *)
  handler_cb     : list task_handler_cb_t    (* task_handler_cb_t [TASK_COUNT] *)
}.

(** [static const uint16_t task_ticks[TASK_COUNT]]: the designated
    initialisers listed in index order. *)
Definition task_ticks : list N :=
  [TICK_1HZ; TICK_2HZ; TICK_5HZ; TICK_10HZ;
   TICK_20HZ; TICK_50HZ; TICK_100HZ; TICK_200HZ].

(** [static task_scheduler_t scheduler = {0}]: the state at program start. *)
Definition scheduler : task_scheduler_t :=
  mk_scheduler 0 (replicate TASK_COUNT 0) (replicate TASK_COUNT 0)
               (replicate TASK_COUNT NULL).

(** Array read [a[i]].  The code only indexes with [i < TASK_COUNT]; the
    value 0 given outside the array is never used on a well-formed state. *)
Definition load (a : list N) (i : nat) : N := default 0 (a !! i).

(** Field updates ([scheduler.f = v], [scheduler.f[i] = v]). *)
Definition set_tick_count (v : N) (s : task_scheduler_t) : task_scheduler_t :=
  mk_scheduler v (flags s) (overflow_count s) (handler_cb s).

Definition set_flag (i : nat) (v : N) (s : task_scheduler_t) : task_scheduler_t :=
  mk_scheduler (tick_count s) (<[i:=v]> (flags s)) (overflow_count s) (handler_cb s).

Definition set_overflow_count (i : nat) (v : N) (s : task_scheduler_t)
  : task_scheduler_t :=
  mk_scheduler (tick_count s) (flags s) (<[i:=v]> (overflow_count s)) (handler_cb s).

Definition set_handler_cb (i : nat) (v : task_handler_cb_t) (s : task_scheduler_t)
  : task_scheduler_t :=
  mk_scheduler (tick_count s) (flags s) (overflow_count s) (<[i:=v]> (handler_cb s)).

(** [for (uint8_t i = 0; i < TASK_COUNT; i++) body]: the body is run for
    i = 0, 1, ..., TASK_COUNT - 1 in that order. *)
Definition for_each_task {St : Type} (body : nat → St → St) (s : St) : St :=
  fold_left (λ acc i, body i acc) (seq 0 TASK_COUNT) s.

(** ** task_tick *)

(** Body of the loop of [task_tick] for index [i]. *)
Definition tick_slot (i : nat) (s : task_scheduler_t) : task_scheduler_t :=
  if tick_count s mod load task_ticks i =? 0 then
    let s1 :=
      if load (flags s) i =? 1
      then set_overflow_count i (wrap8 (load (overflow_count s) i + 1)) s
      else s in
    set_flag i 1 s1
  else s.

Definition task_tick (s : task_scheduler_t) : task_scheduler_t :=
  let s1 := set_tick_count (wrap32 (tick_count s + 1)) s in
  let s2 := for_each_task tick_slot s1 in
  if TICK_1HZ <=? tick_count s2 then set_tick_count 0 s2 else s2.

(** ** task_register_handler *)

Definition task_register_handler (task_type : task_type_t)
    (handler : task_handler_cb_t) (s : task_scheduler_t) : task_scheduler_t :=
  if (task_type <? TASK_COUNT)%nat then set_handler_cb task_type handler s else s.

(** ** task_handler *)

(** One indirect call made by [task_handler]: the slot, the pointer called
    and the scheduler as the callee finds it on entry. *)
Record call_event : Type := mk_call {
  ev_task  : nat;
  ev_fn    : task_handler_cb_t;
  ev_entry : task_scheduler_t
}.

Section Dispatch.

(** What running the function at a given address does to the scheduler
    (a callback may itself call the entry points of the module). *)
Variable run_cb : task_handler_cb_t → task_scheduler_t → task_scheduler_t.

(** Body of the loop of [task_handler] for index [i], on the scheduler and
    the trace of calls made so far. *)
Definition dispatch_slot (i : nat) (w : task_scheduler_t * list call_event)
  : task_scheduler_t * list call_event :=
  let s := w.1 in
  if negb (load (flags s) i =? 0) then
    let s1 := set_flag i 0 s in
    let h := load (handler_cb s1) i in
    if negb (h =? NULL)
    then (run_cb h s1, w.2 ++ [mk_call i h s1])
    else (s1, w.2)
  else w.

Definition task_handler (s : task_scheduler_t)
  : task_scheduler_t * list call_event :=
  for_each_task dispatch_slot (s, []).

(** A call of one of the three entry points, and a run of such calls. *)
Inductive api_call : Type :=
| CallTick
| CallHandler
| CallRegister (task_type : task_type_t) (handler : task_handler_cb_t).

Definition api_step (s : task_scheduler_t) (c : api_call) : task_scheduler_t :=
  match c with
  | CallTick => task_tick s
  | CallHandler => (task_handler s).1
  | CallRegister t h => task_register_handler t h s
  end.

Definition api_run (cs : list api_call) (s : task_scheduler_t)
  : task_scheduler_t :=
  fold_left api_step cs s.

End Dispatch.

(** ** Observations used by the statements *)

(** [n] calls of an operation in a row, and [n] calls of [task_tick]. *)
Fixpoint iterate {St : Type} (f : St → St) (n : nat) (s : St) : St :=
  match n with
  | O => s
  | S n' => iterate f n' (f s)
  end.

Definition tick_n (n : nat) (s : task_scheduler_t) : task_scheduler_t :=
  iterate task_tick n s.

(** Slot [i] was raised between [s] and [s']: its flag or its overflow
    counter is not what it was. *)
Definition raised (i : nat) (s s' : task_scheduler_t) : bool :=
  negb (load (flags s) i =? load (flags s') i)
  || negb (load (overflow_count s) i =? load (overflow_count s') i).

(** Number of calls, among the first [n] calls of [task_tick] from [s], that
    raise slot [i]. *)
Fixpoint count_raises (i : nat) (n : nat) (s : task_scheduler_t) : nat :=
  match n with
  | O => O
  | S n' =>
      ((if raised i s (task_tick s) then 1 else 0) + count_raises i n' (task_tick s))%nat
  end.

(** The [n]-th call of [task_tick] after program start raises slot [i]
    (calls are numbered from 1). *)
Definition raise_at (i : nat) (n : nat) : bool :=
  raised i (tick_n (pred n) scheduler) (tick_n n scheduler).

(** Call [b] is the first call after call [a] that raises slot [i]. *)
Definition next_raise (i : nat) (a b : nat) : Prop :=
  (a < b)%nat ∧ raise_at i b = true
  ∧ ∀ c : nat, (a < c < b)%nat → raise_at i c = false.

(** The condition [scheduler.tick_count % task_ticks[i] == 0] as the loop of
    a call of [task_tick] from [s] evaluates it, the counter having been
    incremented. *)
Definition due (i : nat) (s : task_scheduler_t) : bool :=
  wrap32 (tick_count s + 1) mod load task_ticks i =? 0.


(** The states that the C types can hold: three arrays of [TASK_COUNT]
    cells, 8-bit flags and counters, a 32-bit tick counter. *)
Record wf (s : task_scheduler_t) : Prop := mk_wf {
  wf_tick     : tick_count s < 2 ^ 32;
  wf_flags    : length (flags s) = TASK_COUNT;
  wf_overflow : length (overflow_count s) = TASK_COUNT;
  wf_handlers : length (handler_cb s) = TASK_COUNT;
  wf_flags8   : Forall (λ v, v < 2 ^ 8) (flags s);
  wf_counts8  : Forall (λ v, v < 2 ^ 8) (overflow_count s)
}.

(** Callbacks that leave the scheduler as they found it. *)
Definition callbacks_pure
    (run_cb : task_handler_cb_t → task_scheduler_t → task_scheduler_t) : Prop :=
  ∀ h s, run_cb h s = s.

(** The slots a call of [task_handler] from [s] has to serve, with the
    pointer registered for each: flag set and callback not [NULL]. *)
Definition ready (s : task_scheduler_t) (i : nat) : bool :=
  negb (load (flags s) i =? 0) && negb (load (handler_cb s) i =? NULL).

Definition pending_calls (s : task_scheduler_t) : list (nat * task_handler_cb_t) :=
  map (λ i, (i, load (handler_cb s) i)) (List.filter (ready s) (seq 0 TASK_COUNT)).


(** The slot and the pointer of a logged call. *)
Definition ev_call (e : call_event) : nat * task_handler_cb_t :=
  (ev_task e, ev_fn e).

(** A logged call is in order: the pointer is not [NULL], it is the one the
    table holds for the slot, and the callee finds the slot's flag cleared. *)
Definition call_ok (e : call_event) : Prop :=
  (ev_task e < TASK_COUNT)%nat
  ∧ ev_fn e ≠ NULL
  ∧ load (handler_cb (ev_entry e)) (ev_task e) = ev_fn e
  ∧ load (flags (ev_entry e)) (ev_task e) = 0.

(** The scheduler with the flags of the slots in [l] cleared. *)
Definition clear_flags (l : list nat) (s : task_scheduler_t) : task_scheduler_t :=
  fold_left (λ acc j, set_flag j 0 acc) l s.

(** Number of calls of [task_tick] in a run of API calls. *)
Definition is_tick (c : api_call) : bool :=
  match c with
  | CallTick => true
  | _ => false
  end.

Definition ticks_in (cs : list api_call) : nat := length (List.filter is_tick cs).

(** ** main.c

    The demo program: three handlers that print one line each, registered
    for the 1Hz, 10Hz and 100Hz slots, then a loop that never ends and calls
    [task_tick] and [task_handler] once per pass ([Sleep] only waits).
    Standard output is the list of the strings written, in order; the loop is
    followed for a given number of passes. *)

Section Main.

Import Ascii String.

Definition newline : string := String "010"%char EmptyString.

(** The strings the program writes. *)
Definition banner : string :=
  ("Task Scheduler Simulation (CTRL+C to exit)" ++ newline)%string.
Definition line_1hz : string := ("[1Hz]   Task running" ++ newline)%string.
Definition line_10hz : string := ("[10Hz]  Task running" ++ newline)%string.
Definition line_100hz : string := ("[100Hz] Task running" ++ newline)%string.

(** The addresses of the three handler functions. *)
Variables app_1hz_handler app_10hz_handler app_100hz_handler : task_handler_cb_t.

(** What the function at address [h] writes when called. *)
Definition app_printf (h : task_handler_cb_t) : list string :=
  if h =? app_1hz_handler then [line_1hz]
  else if h =? app_10hz_handler then [line_10hz]
  else if h =? app_100hz_handler then [line_100hz]
  else [].

(** The handlers only call [printf]: the scheduler, private to task.c, is
    as they found it. *)
Definition app_run_cb (h : task_handler_cb_t) (s : task_scheduler_t)
  : task_scheduler_t := s.

(** [main] up to the loop: the three registrations and the banner. *)
Definition main_setup : task_scheduler_t * list string :=
  (task_register_handler TASK_100HZ app_100hz_handler
     (task_register_handler TASK_10HZ app_10hz_handler
        (task_register_handler TASK_1HZ app_1hz_handler scheduler)),
   [banner]).

(** One pass of the loop, on the scheduler and standard output. *)
Definition main_iteration (w : task_scheduler_t * list string)
  : task_scheduler_t * list string :=
  let r := task_handler app_run_cb (task_tick w.1) in
  (r.1, w.2 ++ flat_map (λ e, app_printf (ev_fn e)) r.2).

(** [main] after [n] passes of its loop. *)
Definition main_loop (n : nat) : task_scheduler_t * list string :=
  iterate main_iteration n main_setup.

End Main.

(** * Properties *)

(** ** Array cells *)

Lemma load_insert_eq (a : list N) (i : nat) (v : N) :
  (i < length a)%nat → load (<[i:=v]> a) i = v.
Proof. intros Hi. unfold load. by rewrite list_lookup_insert_eq. Qed.

Lemma load_insert_ne (a : list N) (i j : nat) (v : N) :
  i ≠ j → load (<[i:=v]> a) j = load a j.
Proof. intros Hne. unfold load. by rewrite list_lookup_insert_ne. Qed.

Lemma load_bound (a : list N) (i : nat) (b : N) :
  0 < b → Forall (λ v, v < b) a → load a i < b.
Proof.
  intros Hb Ha. unfold load.
  destruct (a !! i) as [v|] eqn:E; simpl; [|done].
  exact (proj1 (Forall_lookup _ a) Ha i v E).
Qed.

(** Writing back what a cell holds changes nothing. *)
Lemma insert_load_id (a : list N) (i : nat) :
  (i < length a)%nat → <[i:=load a i]> a = a.
Proof.
  intros Hi. apply list_insert_id. unfold load.
  apply lookup_lt_is_Some in Hi as [v ->]. done.
Qed.

(** Writing 0 over a cell that reads 0 changes nothing. *)
Lemma insert_zero_id (a : list N) (i : nat) :
  load a i = 0 → <[i:=0]> a = a.
Proof.
  unfold load. intros H.
  destruct (a !! i) as [v|] eqn:E; simpl in H.
  - subst v. by apply list_insert_id.
  - apply list_insert_ge. by apply lookup_ge_None.
Qed.

Lemma Forall_insert_lt (a : list N) (i : nat) (v b : N) :
  v < b → Forall (λ x, x < b) a → Forall (λ x, x < b) (<[i:=v]> a).
Proof.
  intros Hv Ha. apply Forall_lookup. intros j x Hj.
  destruct (decide (i = j)) as [->|Hne].
  - destruct (decide (j < length a)%nat) as [Hlt|Hge].
    + rewrite list_lookup_insert_eq in Hj by done. by simplify_eq.
    + rewrite list_insert_ge in Hj by lia.
      exact (proj1 (Forall_lookup _ a) Ha j x Hj).
  - rewrite list_lookup_insert_ne in Hj by done.
    exact (proj1 (Forall_lookup _ a) Ha j x Hj).
Qed.

(** ** The loop over the slots *)

Lemma for_each_task_split {St : Type} (body : nat → St → St) (s : St) (i : nat) :
  (i < TASK_COUNT)%nat →
  for_each_task body s =
    fold_left (λ acc j, body j acc) (seq (S i) (TASK_COUNT - S i))
      (body i (fold_left (λ acc j, body j acc) (seq 0 i) s)).
Proof.
  intros Hi. unfold for_each_task.
  replace TASK_COUNT with (i + (1 + (TASK_COUNT - S i)))%nat at 1 by lia.
  rewrite !seq_app, !fold_left_app. simpl. by rewrite Nat.add_1_r.
Qed.

(** ** Field updates

    Reading a field after an update, as rewriting rules (database
    [fields]). *)

Lemma tick_count_set_tick_count v s : tick_count (set_tick_count v s) = v.
Proof. reflexivity. Qed.
Lemma flags_set_tick_count v s : flags (set_tick_count v s) = flags s.
Proof. reflexivity. Qed.
Lemma overflow_count_set_tick_count v s :
  overflow_count (set_tick_count v s) = overflow_count s.
Proof. reflexivity. Qed.
Lemma handler_cb_set_tick_count v s : handler_cb (set_tick_count v s) = handler_cb s.
Proof. reflexivity. Qed.

Lemma tick_count_set_flag i v s : tick_count (set_flag i v s) = tick_count s.
Proof. reflexivity. Qed.
Lemma flags_set_flag i v s : flags (set_flag i v s) = <[i:=v]> (flags s).
Proof. reflexivity. Qed.
Lemma overflow_count_set_flag i v s :
  overflow_count (set_flag i v s) = overflow_count s.
Proof. reflexivity. Qed.
Lemma handler_cb_set_flag i v s : handler_cb (set_flag i v s) = handler_cb s.
Proof. reflexivity. Qed.

Lemma tick_count_set_handler_cb i v s :
  tick_count (set_handler_cb i v s) = tick_count s.
Proof. reflexivity. Qed.
Lemma flags_set_handler_cb i v s : flags (set_handler_cb i v s) = flags s.
Proof. reflexivity. Qed.
Lemma overflow_count_set_handler_cb i v s :
  overflow_count (set_handler_cb i v s) = overflow_count s.
Proof. reflexivity. Qed.
Lemma handler_cb_set_handler_cb i v s :
  handler_cb (set_handler_cb i v s) = <[i:=v]> (handler_cb s).
Proof. reflexivity. Qed.

Create Rewrite HintDb fields.
#[export] Hint Rewrite
  tick_count_set_tick_count flags_set_tick_count
  overflow_count_set_tick_count handler_cb_set_tick_count
  tick_count_set_flag flags_set_flag overflow_count_set_flag handler_cb_set_flag
  tick_count_set_handler_cb flags_set_handler_cb
  overflow_count_set_handler_cb handler_cb_set_handler_cb : fields.

(** ** [task_tick], slot by slot *)

Lemma tick_slot_tick_count (j : nat) (s : task_scheduler_t) :
  tick_count (tick_slot j s) = tick_count s.
Proof. unfold tick_slot. by repeat case_match. Qed.

Lemma tick_slot_handler_cb (j : nat) (s : task_scheduler_t) :
  handler_cb (tick_slot j s) = handler_cb s.
Proof. unfold tick_slot. by repeat case_match. Qed.

Lemma tick_slot_lengths (j : nat) (s : task_scheduler_t) :
  length (flags (tick_slot j s)) = length (flags s)
  ∧ length (overflow_count (tick_slot j s)) = length (overflow_count s).
Proof.
  unfold tick_slot. repeat case_match; simpl; by rewrite ?length_insert.
Qed.

Lemma tick_slot_ranges (j : nat) (s : task_scheduler_t) :
  Forall (λ v, v < 2 ^ 8) (flags s) →
  Forall (λ v, v < 2 ^ 8) (overflow_count s) →
  Forall (λ v, v < 2 ^ 8) (flags (tick_slot j s))
  ∧ Forall (λ v, v < 2 ^ 8) (overflow_count (tick_slot j s)).
Proof.
  intros Hf Ho. unfold tick_slot.
  repeat case_match; simpl; split; try done;
    apply Forall_insert_lt; try done; unfold wrap8; lia.
Qed.

Lemma tick_slot_other (i j : nat) (s : task_scheduler_t) :
  i ≠ j →
  load (flags (tick_slot j s)) i = load (flags s) i
  ∧ load (overflow_count (tick_slot j s)) i = load (overflow_count s) i.
Proof.
  intros Hne. unfold tick_slot.
  repeat case_match; simpl; by rewrite ?load_insert_ne.
Qed.

Lemma tick_slot_self (i : nat) (s : task_scheduler_t) :
  (i < length (flags s))%nat → (i < length (overflow_count s))%nat →
  let c := tick_count s mod load task_ticks i =? 0 in
  load (flags (tick_slot i s)) i = (if c then 1 else load (flags s) i)
  ∧ load (overflow_count (tick_slot i s)) i =
      (if c && (load (flags s) i =? 1)
       then wrap8 (load (overflow_count s) i + 1)
       else load (overflow_count s) i).
Proof.
  intros Hf Ho c. subst c. unfold tick_slot.
  destruct (tick_count s mod load task_ticks i =? 0); simpl; [|done].
  destruct (load (flags s) i =? 1); simpl;
    by rewrite ?load_insert_eq.
Qed.

(** The loop of [task_tick] over any list of indices. *)
Lemma tick_loop_frame (l : list nat) (s : task_scheduler_t) :
  let s' := fold_left (λ acc j, tick_slot j acc) l s in
  tick_count s' = tick_count s
  ∧ handler_cb s' = handler_cb s
  ∧ length (flags s') = length (flags s)
  ∧ length (overflow_count s') = length (overflow_count s).
Proof.
  revert s. induction l as [|j l IH]; intros s; simpl; [done|].
  destruct (IH (tick_slot j s)) as (H1 & H2 & H3 & H4).
  destruct (tick_slot_lengths j s) as [L1 L2].
  rewrite H1, H2, H3, H4, tick_slot_tick_count, tick_slot_handler_cb, L1, L2.
  done.
Qed.

Lemma tick_loop_ranges (l : list nat) (s : task_scheduler_t) :
  Forall (λ v, v < 2 ^ 8) (flags s) →
  Forall (λ v, v < 2 ^ 8) (overflow_count s) →
  let s' := fold_left (λ acc j, tick_slot j acc) l s in
  Forall (λ v, v < 2 ^ 8) (flags s')
  ∧ Forall (λ v, v < 2 ^ 8) (overflow_count s').
Proof.
  revert s. induction l as [|j l IH]; intros s Hf Ho; simpl; [done|].
  destruct (tick_slot_ranges j s Hf Ho) as [Hf' Ho']. by apply IH.
Qed.

Lemma tick_loop_other (l : list nat) (s : task_scheduler_t) (i : nat) :
  i ∉ l →
  let s' := fold_left (λ acc j, tick_slot j acc) l s in
  load (flags s') i = load (flags s) i
  ∧ load (overflow_count s') i = load (overflow_count s) i.
Proof.
  revert s. induction l as [|j l IH]; intros s Hi; simpl; [done|].
  apply not_elem_of_cons in Hi as [Hne Hi].
  destruct (IH (tick_slot j s) Hi) as [H1 H2].
  destruct (tick_slot_other i j s Hne) as [H3 H4].
  by rewrite H1, H2, H3, H4.
Qed.

(** The whole loop of [task_tick], seen from slot [i]. *)
Lemma tick_loop_slot (s : task_scheduler_t) (i : nat) :
  (i < TASK_COUNT)%nat →
  length (flags s) = TASK_COUNT → length (overflow_count s) = TASK_COUNT →
  load (flags (for_each_task tick_slot s)) i =
      (if tick_count s mod load task_ticks i =? 0 then 1 else load (flags s) i)
  ∧ load (overflow_count (for_each_task tick_slot s)) i =
      (if (tick_count s mod load task_ticks i =? 0) && (load (flags s) i =? 1)
       then wrap8 (load (overflow_count s) i + 1)
       else load (overflow_count s) i).
Proof.
  intros Hi Lf Lo.
  rewrite (for_each_task_split tick_slot s i Hi).
  destruct (tick_loop_frame (seq 0 i) s) as (T & _ & F1 & F2).
  destruct (tick_loop_other (seq 0 i) s i) as [P1 P2].
  { rewrite elem_of_seq. lia. }
  remember (fold_left (λ acc j, tick_slot j acc) (seq 0 i) s) as pre eqn:Epre.
  destruct (tick_loop_other (seq (S i) (TASK_COUNT - S i)) (tick_slot i pre) i)
    as [Q1 Q2].
  { rewrite elem_of_seq. lia. }
  destruct (tick_slot_self i pre) as [R1 R2].
  { rewrite F1, Lf. exact Hi. }
  { rewrite F2, Lo. exact Hi. }
  rewrite Q1, Q2, R1, R2, T, P1, P2. done.
Qed.

(** [task_tick] is its loop followed by a write to the tick counter (the
    reset, or the value it already has). *)
Lemma task_tick_loop (s : task_scheduler_t) :
  task_tick s =
    set_tick_count
      (if TICK_1HZ <=? wrap32 (tick_count s + 1) then 0
       else wrap32 (tick_count s + 1))
      (for_each_task tick_slot (set_tick_count (wrap32 (tick_count s + 1)) s)).
Proof.
  unfold task_tick.
  destruct (tick_loop_frame (seq 0 TASK_COUNT)
              (set_tick_count (wrap32 (tick_count s + 1)) s)) as (H1 & _).
  rewrite tick_count_set_tick_count in H1.
  unfold for_each_task. rewrite H1.
  destruct (TICK_1HZ <=? wrap32 (tick_count s + 1)); [done|].
  revert H1.
  generalize (fold_left (λ acc j, tick_slot j acc) (seq 0 TASK_COUNT)
                (set_tick_count (wrap32 (tick_count s + 1)) s)).
  intros [t f o h] H1. by rewrite <- H1.
Qed.

(** What one call of [task_tick] does to the tick counter. *)
Lemma task_tick_tick_count (s : task_scheduler_t) :
  tick_count (task_tick s) =
    (if TICK_1HZ <=? wrap32 (tick_count s + 1) then 0
     else wrap32 (tick_count s + 1)).
Proof. rewrite task_tick_loop. apply tick_count_set_tick_count. Qed.

Lemma task_tick_handler_cb (s : task_scheduler_t) :
  handler_cb (task_tick s) = handler_cb s.
Proof.
  rewrite task_tick_loop, handler_cb_set_tick_count. unfold for_each_task.
  destruct (tick_loop_frame (seq 0 TASK_COUNT)
              (set_tick_count (wrap32 (tick_count s + 1)) s)) as (_ & H2 & _).
  exact H2.
Qed.

(** What one call of [task_tick] does to slot [i]: when the slot is due its
    flag is set, and its counter is incremented modulo 256 if the flag was
    already 1; otherwise the slot is left alone. *)
Lemma task_tick_slot (s : task_scheduler_t) (i : nat) :
  (i < TASK_COUNT)%nat →
  length (flags s) = TASK_COUNT → length (overflow_count s) = TASK_COUNT →
  load (flags (task_tick s)) i = (if due i s then 1 else load (flags s) i)
  ∧ load (overflow_count (task_tick s)) i =
      (if due i s && (load (flags s) i =? 1)
       then wrap8 (load (overflow_count s) i + 1)
       else load (overflow_count s) i).
Proof.
  intros Hi Lf Lo.
  pose proof (tick_loop_slot (set_tick_count (wrap32 (tick_count s + 1)) s) i Hi)
    as Hview.
  autorewrite with fields in Hview. specialize (Hview Lf Lo).
  rewrite task_tick_loop. autorewrite with fields. exact Hview.
Qed.

Lemma task_tick_wf (s : task_scheduler_t) : wf s → wf (task_tick s).
Proof.
  intros [Ht Lf Lo Lh Rf Ro].
  pose proof (task_tick_tick_count s) as T.
  pose proof (task_tick_handler_cb s) as C.
  destruct (tick_loop_frame (seq 0 TASK_COUNT)
              (set_tick_count (wrap32 (tick_count s + 1)) s))
    as (_ & _ & F1 & F2).
  destruct (tick_loop_ranges (seq 0 TASK_COUNT)
              (set_tick_count (wrap32 (tick_count s + 1)) s)) as [G1 G2].
  { by autorewrite with fields. }
  { by autorewrite with fields. }
  autorewrite with fields in F1, F2.
  split.
  - rewrite T. unfold wrap32. destruct (TICK_1HZ <=? _); lia.
  - rewrite task_tick_loop. autorewrite with fields.
    unfold for_each_task. by rewrite F1.
  - rewrite task_tick_loop. autorewrite with fields.
    unfold for_each_task. by rewrite F2.
  - by rewrite C.
  - rewrite task_tick_loop. autorewrite with fields. exact G1.
  - rewrite task_tick_loop. autorewrite with fields. exact G2.
Qed.

(** ** Runs of [task_tick] *)

Lemma scheduler_wf : wf scheduler.
Proof.
  split; try reflexivity.
  - unfold scheduler, flags. by apply Forall_replicate.
  - unfold scheduler, overflow_count. by apply Forall_replicate.
Qed.

Lemma iterate_succ {St : Type} (f : St → St) (n : nat) (s : St) :
  iterate f (S n) s = iterate f n (f s).
Proof. reflexivity. Qed.

Lemma tick_n_zero (s : task_scheduler_t) : tick_n 0 s = s.
Proof. reflexivity. Qed.

Lemma tick_n_succ (n : nat) (s : task_scheduler_t) :
  tick_n (S n) s = tick_n n (task_tick s).
Proof. exact (iterate_succ task_tick n s). Qed.

Lemma count_raises_succ (i n : nat) (s : task_scheduler_t) :
  count_raises i (S n) s =
    ((if raised i s (task_tick s) then 1 else 0)
     + count_raises i n (task_tick s))%nat.
Proof. reflexivity. Qed.

Lemma tick_n_succ_r (n : nat) (s : task_scheduler_t) :
  tick_n (S n) s = task_tick (tick_n n s).
Proof.
  revert s. induction n as [|n IH]; intros s; [done|].
  rewrite (tick_n_succ (S n)), IH. by rewrite tick_n_succ.
Qed.

Lemma tick_n_wf (n : nat) (s : task_scheduler_t) : wf s → wf (tick_n n s).
Proof.
  revert s. induction n as [|n IH]; intros s Hs; [done|].
  rewrite tick_n_succ. apply IH. by apply task_tick_wf.
Qed.

(** On a well-formed state a slot is observed to be raised by a call of
    [task_tick] exactly when the modulo test of the loop succeeds for it. *)
Lemma raised_due (s : task_scheduler_t) (i : nat) :
  wf s → (i < TASK_COUNT)%nat → raised i s (task_tick s) = due i s.
Proof.
  intros Hs Hi. destruct Hs as [Ht Lf Lo Lh Rf Ro].
  destruct (task_tick_slot s i Hi Lf Lo) as [Hf Hc].
  assert (Hb : load (overflow_count s) i < 2 ^ 8) by (by apply load_bound).
  unfold raised. rewrite Hf, Hc. clear Hf Hc.
  generalize dependent (load (overflow_count s) i). intros c Hb.
  generalize (load (flags s) i). intros f.
  unfold wrap8.
  destruct (due i s); cbn [andb].
  - destruct (N.eqb_spec f 1) as [->|E]; cbn [negb orb]; [|done].
    destruct (N.eqb_spec c ((c + 1) mod 2 ^ 8)) as [E'|E']; [lia|done].
  - by rewrite !N.eqb_refl.
Qed.

(** From program start the tick counter is the number of ticks modulo one
    second. *)
Lemma tick_count_tick_n (n : nat) :
  tick_count (tick_n n scheduler) = N.of_nat n mod 1000.
Proof.
  induction n as [|n IH]; [done|].
  rewrite tick_n_succ_r, task_tick_tick_count, IH.
  unfold wrap32, TICK_1HZ.
  destruct (N.leb_spec 1000 ((N.of_nat n mod 1000 + 1) mod 2 ^ 32)); lia.
Qed.

Lemma task_ticks_cases (i : nat) :
  (i < TASK_COUNT)%nat →
  let p := load task_ticks i in
  p = 1000 ∨ p = 500 ∨ p = 200 ∨ p = 100 ∨ p = 50 ∨ p = 20 ∨ p = 10 ∨ p = 5.
Proof.
  intros Hi. unfold TASK_COUNT in Hi.
  do 8 (destruct i as [|i]; [vm_compute; auto 10|]). lia.
Qed.

(** Call number [n] raises slot [i] exactly when [n] is a positive multiple
    of the slot's period. *)
Lemma raise_at_spec (i n : nat) :
  (i < TASK_COUNT)%nat →
  raise_at i n = true ↔ (0 < n)%nat ∧ N.of_nat n mod load task_ticks i = 0.
Proof.
  intros Hi. unfold raise_at. destruct n as [|n].
  - cbn [pred]. unfold raised. rewrite !N.eqb_refl. cbn [negb orb].
    split; [done|lia].
  - cbn [pred]. rewrite tick_n_succ_r.
    rewrite raised_due by (try apply tick_n_wf; try apply scheduler_wf; done).
    unfold due. rewrite tick_count_tick_n. unfold wrap32.
    rewrite N.eqb_eq.
    pose proof (task_ticks_cases i Hi) as Hp. cbv zeta in Hp.
    generalize dependent (load task_ticks i). intros p Hp.
    destruct Hp as [->|[->|[->|[->|[->|[->|[->| ->]]]]]]]; lia.
Qed.

(** How the flag and the overflow counter of a slot stand after [n] calls of
    [task_tick], in terms of the number [k] of raises among them: every
    raise but the first one that finds the flag clear adds 1 modulo 256. *)
Lemma tick_n_slot (n : nat) (s : task_scheduler_t) (i : nat) :
  wf s → (i < TASK_COUNT)%nat →
  let k := count_raises i n s in
  load (flags (tick_n n s)) i = (if (0 <? k)%nat then 1 else load (flags s) i)
  ∧ load (overflow_count (tick_n n s)) i =
      wrap8 (load (overflow_count s) i + N.of_nat k
             - (if (0 <? k)%nat && negb (load (flags s) i =? 1) then 1 else 0)).
Proof.
  revert s. induction n as [|n IH]; intros s Hs Hi.
  - rewrite tick_n_zero. cbn [count_raises Nat.ltb Nat.leb andb N.of_nat].
    split; [done|].
    assert (load (overflow_count s) i < 2 ^ 8)
      by (apply load_bound; [done|by destruct Hs]).
    unfold wrap8. rewrite N.add_0_r, N.sub_0_r. lia.
  - destruct (IH (task_tick s) (task_tick_wf s Hs) Hi) as [IHf IHc].
    rewrite tick_n_succ, count_raises_succ, raised_due by done.
    destruct (task_tick_slot s i Hi) as [Hf Hc]; [by destruct Hs..|].
    assert (Hb : load (overflow_count s) i < 2 ^ 8)
      by (apply load_bound; [done|by destruct Hs]).
    cbv zeta in IHf, IHc |- *.
    rewrite IHf, IHc, Hf, Hc. clear IHf IHc Hf Hc IH.
    generalize (count_raises i n (task_tick s)). intros k.
    generalize dependent (load (overflow_count s) i). intros c Hb.
    unfold wrap8.
    destruct (due i s); simpl.
    + destruct (N.eqb_spec (load (flags s) i) 1) as [E|E]; simpl.
      * split; [by destruct k|]. destruct k; simpl; lia.
      * split; [by destruct k|]. destruct k; simpl; lia.
    + split; [done|].
      destruct k; simpl; [lia|].
      destruct (N.eqb_spec (load (flags s) i) 1); simpl; lia.
Qed.

(** ** [task_handler] with arbitrary callbacks *)

Lemma load_insert_zero (a : list N) (i : nat) : load (<[i:=0]> a) i = 0.
Proof.
  destruct (decide (i < length a)%nat) as [Hlt|Hge].
  - by apply load_insert_eq.
  - unfold load. rewrite list_insert_ge by lia.
    assert (a !! i = None) as -> by (apply lookup_ge_None; lia). done.
Qed.

Lemma Forall_sublist {A : Type} (P : A → Prop) (l1 l2 : list A) :
  l1 `sublist_of` l2 → Forall P l2 → Forall P l1.
Proof.
  induction 1 as [|x l1 l2 _ IH|x l1 l2 _ IH]; intros H; [done|..].
  - apply Forall_cons; [by apply Forall_inv in H|].
    apply IH. by apply Forall_inv_tail in H.
  - apply IH. by apply Forall_inv_tail in H.
Qed.

Lemma StronglySorted_sublist {A : Type} (R : A → A → Prop) (l1 l2 : list A) :
  l1 `sublist_of` l2 → StronglySorted R l2 → StronglySorted R l1.
Proof.
  induction 1 as [|x l1 l2 Hsub IH|x l1 l2 _ IH]; intros H; [done|..].
  - apply StronglySorted_inv in H as [H Hx].
    apply SSorted_cons; [auto|]. by apply (Forall_sublist _ l1 l2).
  - apply StronglySorted_inv in H as [H _]. auto.
Qed.

Lemma StronglySorted_seq (a n : nat) : StronglySorted lt (seq a n).
Proof.
  revert a. induction n as [|n IH]; intros a; [apply SSorted_nil|].
  cbn [seq]. apply SSorted_cons; [apply IH|].
  apply Forall_forall. intros x Hx. apply in_seq in Hx. lia.
Qed.

Section HandlerAny.

Variable run_cb : task_handler_cb_t → task_scheduler_t → task_scheduler_t.

(** One iteration appends at most one call to the trace, and that call is
    in order. *)
Lemma dispatch_slot_trace (i : nat) (w : task_scheduler_t * list call_event) :
  (i < TASK_COUNT)%nat →
  ∃ new, (dispatch_slot run_cb i w).2 = w.2 ++ new
         ∧ map ev_task new `sublist_of` [i]
         ∧ Forall call_ok new.
Proof.
  intros Hi. unfold dispatch_slot.
  destruct (negb (load (flags w.1) i =? 0)).
  - destruct (N.eqb_spec (load (handler_cb (set_flag i 0 w.1)) i) NULL)
      as [E|E]; cbn [negb snd].
    + exists []. rewrite app_nil_r. split; [done|]. split; [|done].
      apply sublist_nil_l.
    + eexists [_]. split; [done|]. split; [done|].
      apply Forall_singleton. unfold call_ok.
      cbn [ev_task ev_fn ev_entry]. autorewrite with fields.
      split; [done|]. split; [done|]. split; [done|]. apply load_insert_zero.
  - exists []. rewrite app_nil_r. split; [done|]. split; [|done].
    apply sublist_nil_l.
Qed.

(** The loop over a list of indices only appends calls, for slots taken in
    the order of the list and each at most once, and all of them in order. *)
Lemma dispatch_loop_trace (l : list nat)
    (w : task_scheduler_t * list call_event) :
  Forall (λ i, (i < TASK_COUNT)%nat) l →
  ∃ new, (fold_left (λ acc j, dispatch_slot run_cb j acc) l w).2 = w.2 ++ new
         ∧ map ev_task new `sublist_of` l
         ∧ Forall call_ok new.
Proof.
  revert w. induction l as [|i l IH]; intros w Hl.
  - exists []. cbn [fold_left]. rewrite app_nil_r.
    split; [done|]. split; [apply sublist_nil|done].
  - pose proof (Forall_inv Hl) as Hi. apply Forall_inv_tail in Hl.
    cbn [fold_left].
    destruct (dispatch_slot_trace i w Hi) as (n1 & E1 & S1 & O1).
    destruct (IH (dispatch_slot run_cb i w) Hl) as (n2 & E2 & S2 & O2).
    exists (n1 ++ n2). rewrite E2, E1, app_assoc. split; [done|].
    split; [|by apply Forall_app].
    rewrite map_app. change (i :: l) with ([i] ++ l). by apply sublist_app.
Qed.

(** A property of the scheduler that clearing a flag and running a callback
    both keep is kept by [task_handler]. *)
Lemma dispatch_loop_invariant (P : task_scheduler_t → Prop) (l : list nat)
    (w : task_scheduler_t * list call_event) :
  (∀ i s, P s → P (set_flag i 0 s)) →
  (∀ h s, P s → P (run_cb h s)) →
  P w.1 → P (fold_left (λ acc j, dispatch_slot run_cb j acc) l w).1.
Proof.
  intros Hclear Hcb. revert w. induction l as [|i l IH]; intros w Hw; [done|].
  cbn [fold_left]. apply IH. unfold dispatch_slot.
  destruct (negb (load (flags w.1) i =? 0)); [|done].
  destruct (negb (load (handler_cb (set_flag i 0 w.1)) i =? NULL));
    cbn [fst]; auto.
Qed.

Lemma task_handler_invariant (P : task_scheduler_t → Prop)
    (s : task_scheduler_t) :
  (∀ i s, P s → P (set_flag i 0 s)) →
  (∀ h s, P s → P (run_cb h s)) →
  P s → P (task_handler run_cb s).1.
Proof.
  intros Hclear Hcb Hs. unfold task_handler, for_each_task.
  by apply dispatch_loop_invariant.
Qed.

End HandlerAny.

(** ** [task_register_handler] *)

Lemma task_register_handler_in_range (t : task_type_t) (h : task_handler_cb_t)
    (s : task_scheduler_t) :
  (t < TASK_COUNT)%nat → task_register_handler t h s = set_handler_cb t h s.
Proof.
  intros Ht. unfold task_register_handler.
  by destruct (Nat.ltb_spec t TASK_COUNT); [|lia].
Qed.

Lemma task_register_handler_out_of_range (t : task_type_t)
    (h : task_handler_cb_t) (s : task_scheduler_t) :
  (TASK_COUNT ≤ t)%nat → task_register_handler t h s = s.
Proof.
  intros Ht. unfold task_register_handler.
  by destruct (Nat.ltb_spec t TASK_COUNT); [lia|].
Qed.

Lemma task_register_handler_fields (t : task_type_t) (h : task_handler_cb_t)
    (s : task_scheduler_t) :
  tick_count (task_register_handler t h s) = tick_count s
  ∧ flags (task_register_handler t h s) = flags s
  ∧ overflow_count (task_register_handler t h s) = overflow_count s
  ∧ length (handler_cb (task_register_handler t h s)) = length (handler_cb s).
Proof.
  unfold task_register_handler. destruct (t <? TASK_COUNT)%nat; [|done].
  autorewrite with fields. by rewrite length_insert.
Qed.

Lemma task_register_handler_wf (t : task_type_t) (h : task_handler_cb_t)
    (s : task_scheduler_t) :
  wf s → wf (task_register_handler t h s).
Proof.
  intros [Ht Lf Lo Lh Rf Ro].
  destruct (task_register_handler_fields t h s) as (E1 & E2 & E3 & E4).
  split; by rewrite ?E1, ?E2, ?E3, ?E4.
Qed.

(** ** [task_handler] with callbacks that leave the scheduler alone *)

Lemma clear_flags_fields (l : list nat) (s : task_scheduler_t) :
  tick_count (clear_flags l s) = tick_count s
  ∧ overflow_count (clear_flags l s) = overflow_count s
  ∧ handler_cb (clear_flags l s) = handler_cb s
  ∧ length (flags (clear_flags l s)) = length (flags s).
Proof.
  unfold clear_flags. revert s. induction l as [|i l IH]; intros s; [done|].
  cbn [fold_left]. destruct (IH (set_flag i 0 s)) as (E1 & E2 & E3 & E4).
  rewrite E1, E2, E3, E4. autorewrite with fields. by rewrite length_insert.
Qed.

Lemma clear_flags_load (l : list nat) (s : task_scheduler_t) (j : nat) :
  load (flags (clear_flags l s)) j =
    (if decide (j ∈ l) then 0 else load (flags s) j).
Proof.
  unfold clear_flags. revert s. induction l as [|i l IH]; intros s.
  - cbn [fold_left]. destruct (decide (j ∈ [])) as [H|H]; [|done].
    by apply elem_of_nil in H.
  - cbn [fold_left]. rewrite IH. autorewrite with fields.
    destruct (decide (j ∈ l)) as [Hl|Hl].
    + rewrite decide_True; [done|]. by apply elem_of_cons; right.
    + destruct (decide (i = j)) as [->|Hne].
      * rewrite decide_True by (apply elem_of_cons; by left).
        apply load_insert_zero.
      * rewrite decide_False.
        -- by apply load_insert_ne.
        -- intros [?|?]%elem_of_cons; congruence.
Qed.

Lemma clear_flags_ranges (l : list nat) (s : task_scheduler_t) :
  Forall (λ v, v < 2 ^ 8) (flags s) →
  Forall (λ v, v < 2 ^ 8) (flags (clear_flags l s)).
Proof.
  unfold clear_flags. revert s. induction l as [|i l IH]; intros s Hs; [done|].
  cbn [fold_left]. apply IH. autorewrite with fields.
  by apply Forall_insert_lt.
Qed.

(** Clearing flags that already read 0 changes nothing. *)
Lemma clear_flags_id (l : list nat) (s : task_scheduler_t) :
  (∀ j, j ∈ l → load (flags s) j = 0) → clear_flags l s = s.
Proof.
  unfold clear_flags. induction l as [|i l IH]; intros H; [done|].
  cbn [fold_left].
  assert (set_flag i 0 s = s) as ->.
  { unfold set_flag. rewrite insert_zero_id; [by destruct s|].
    apply H, elem_of_cons. by left. }
  apply IH. intros j Hj. apply H, elem_of_cons. by right.
Qed.

Section HandlerPure.

Variable run_cb : task_handler_cb_t → task_scheduler_t → task_scheduler_t.
Hypothesis run_cb_pure : callbacks_pure run_cb.

(** One iteration: the flag of the slot reads 0 afterwards, and the callback
    is called exactly when the flag was set and the pointer is not [NULL]. *)
Lemma dispatch_slot_pure (i : nat) (s : task_scheduler_t)
    (tr : list call_event) :
  dispatch_slot run_cb i (s, tr) =
    (set_flag i 0 s,
     tr ++ (if ready s i
            then [mk_call i (load (handler_cb s) i) (set_flag i 0 s)]
            else [])).
Proof.
  unfold dispatch_slot, ready. cbn [fst snd].
  destruct (N.eqb_spec (load (flags s) i) 0) as [E|E]; cbn [negb andb].
  - rewrite app_nil_r. f_equal. unfold set_flag.
    rewrite insert_zero_id by done. by destruct s.
  - rewrite handler_cb_set_flag.
    destruct (N.eqb_spec (load (handler_cb s) i) NULL) as [E'|E'];
      cbn [negb].
    + by rewrite app_nil_r.
    + by rewrite run_cb_pure.
Qed.

Lemma ready_set_flag_ne (i j : nat) (s : task_scheduler_t) :
  i ≠ j → ready (set_flag i 0 s) j = ready s j.
Proof.
  intros Hne. unfold ready. autorewrite with fields.
  by rewrite load_insert_ne.
Qed.

(** The loop over a duplicate-free list of indices clears their flags and
    calls, in the order of the list, the callbacks of the slots that were
    ready at the start. *)
Lemma dispatch_loop_pure (l : list nat) (s : task_scheduler_t)
    (tr : list call_event) :
  NoDup l →
  ∃ new,
    fold_left (λ acc j, dispatch_slot run_cb j acc) l (s, tr)
      = (clear_flags l s, tr ++ new)
    ∧ map ev_call new
      = map (λ i, (i, load (handler_cb s) i)) (List.filter (ready s) l).
Proof.
  revert s tr. induction l as [|i l IH]; intros s tr Hl.
  - exists []. by rewrite app_nil_r.
  - pose proof (NoDup_cons_1_1 _ _ Hl) as Hi. apply NoDup_cons_1_2 in Hl.
    cbn [fold_left].
    rewrite dispatch_slot_pure.
    destruct (IH (set_flag i 0 s)
                (tr ++ (if ready s i
                        then [mk_call i (load (handler_cb s) i) (set_flag i 0 s)]
                        else [])) Hl) as (new & E & M).
    eexists. rewrite E, <- app_assoc. split; [reflexivity|].
    rewrite map_app, M. rewrite handler_cb_set_flag.
    assert (List.filter (ready (set_flag i 0 s)) l = List.filter (ready s) l)
      as ->.
    { apply List.filter_ext_in. intros j Hj. apply ready_set_flag_ne.
      intros ->. by apply Hi, list_elem_of_In. }
    cbn [List.filter]. by destruct (ready s i).
Qed.

(** [task_handler] as a whole. *)
Lemma task_handler_pure (s : task_scheduler_t) :
  (task_handler run_cb s).1 = clear_flags (seq 0 TASK_COUNT) s
  ∧ map ev_call (task_handler run_cb s).2 = pending_calls s.
Proof.
  unfold task_handler, for_each_task, pending_calls.
  destruct (dispatch_loop_pure (seq 0 TASK_COUNT) s [] (NoDup_seq _ _))
    as (new & E & M).
  rewrite E. cbn [fst snd app]. done.
Qed.

Lemma task_handler_pure_fields (s : task_scheduler_t) :
  tick_count (task_handler run_cb s).1 = tick_count s
  ∧ overflow_count (task_handler run_cb s).1 = overflow_count s
  ∧ handler_cb (task_handler run_cb s).1 = handler_cb s
  ∧ length (flags (task_handler run_cb s).1) = length (flags s).
Proof.
  destruct (task_handler_pure s) as [-> _]. apply clear_flags_fields.
Qed.

Lemma task_handler_pure_flag (s : task_scheduler_t) (i : nat) :
  load (flags (task_handler run_cb s).1) i
    = (if decide (i < TASK_COUNT)%nat then 0 else load (flags s) i).
Proof.
  destruct (task_handler_pure s) as [-> _]. rewrite clear_flags_load.
  destruct (decide (i ∈ seq 0 TASK_COUNT)) as [H|H];
    rewrite elem_of_seq in H.
  - rewrite decide_True; [done|lia].
  - rewrite decide_False; [done|lia].
Qed.

Lemma task_handler_pure_wf (s : task_scheduler_t) :
  wf s → wf (task_handler run_cb s).1.
Proof.
  intros [Ht Lf Lo Lh Rf Ro].
  destruct (task_handler_pure_fields s) as (E1 & E2 & E3 & E4).
  split; rewrite ?E1, ?E2, ?E3, ?E4; try done.
  destruct (task_handler_pure s) as [-> _]. by apply clear_flags_ranges.
Qed.

Lemma api_step_wf (s : task_scheduler_t) (c : api_call) :
  wf s → wf (api_step run_cb s c).
Proof.
  intros Hs. destruct c as [| |t h]; cbn [api_step].
  - by apply task_tick_wf.
  - by apply task_handler_pure_wf.
  - by apply task_register_handler_wf.
Qed.

Lemma api_run_wf (cs : list api_call) (s : task_scheduler_t) :
  wf s → wf (api_run run_cb cs s).
Proof.
  unfold api_run. revert s. induction cs as [|c cs IH]; intros s Hs; [done|].
  cbn [fold_left]. by apply IH, api_step_wf.
Qed.

End HandlerPure.

(** ** The tick counter along any run of API calls *)

Lemma task_tick_below_second (s : task_scheduler_t) :
  tick_count (task_tick s) < TICK_1HZ.
Proof.
  rewrite task_tick_tick_count. unfold TICK_1HZ.
  destruct (N.leb_spec 1000 (wrap32 (tick_count s + 1))); lia.
Qed.

Lemma task_tick_next_count (s : task_scheduler_t) :
  tick_count s < TICK_1HZ →
  tick_count (task_tick s) =
    (if tick_count s + 1 =? TICK_1HZ then 0 else tick_count s + 1).
Proof.
  intros Hs. rewrite task_tick_tick_count. unfold TICK_1HZ, wrap32 in *.
  destruct (N.leb_spec 1000 ((tick_count s + 1) mod 2 ^ 32));
    destruct (N.eqb_spec (tick_count s + 1) 1000); lia.
Qed.

Lemma api_run_below_second
    (run_cb : task_handler_cb_t → task_scheduler_t → task_scheduler_t)
    (cs : list api_call) (s : task_scheduler_t) :
  (∀ h s, tick_count s < TICK_1HZ → tick_count (run_cb h s) < TICK_1HZ) →
  tick_count s < TICK_1HZ → tick_count (api_run run_cb cs s) < TICK_1HZ.
Proof.
  intros Hcb. unfold api_run. revert s.
  induction cs as [|c cs IH]; intros s Hs; [done|].
  cbn [fold_left]. apply IH. destruct c as [| |t h]; cbn [api_step].
  - apply task_tick_below_second.
  - by apply (task_handler_invariant run_cb (λ s, tick_count s < TICK_1HZ)).
  - by destruct (task_register_handler_fields t h s) as (-> & _).
Qed.

(** ** Claims about [task_tick] *)

(** C1: from the initial state (tick counter 0, all flags 0, all overflow
    counters 0), 1000 calls of [task_tick] with no call of [task_handler]
    leave the flag of the 1Hz slot set, raised once, with
    [overflow_count[TASK_1HZ] = 0]; the 200Hz slot, of period 5, has been
    raised 200 times and [overflow_count[TASK_200HZ] = 199]. *)
Theorem C1_one_second_without_handler :
  scheduler = mk_scheduler 0 [0; 0; 0; 0; 0; 0; 0; 0] [0; 0; 0; 0; 0; 0; 0; 0]
                           [NULL; NULL; NULL; NULL; NULL; NULL; NULL; NULL]
  ∧ load (flags (tick_n 1000 scheduler)) TASK_1HZ = 1
  ∧ count_raises TASK_1HZ 1000 scheduler = 1%nat
  ∧ load (overflow_count (tick_n 1000 scheduler)) TASK_1HZ = 0
  ∧ load task_ticks TASK_200HZ = 5
  ∧ count_raises TASK_200HZ 1000 scheduler = 200%nat
  ∧ load (overflow_count (tick_n 1000 scheduler)) TASK_200HZ = 199.
Proof. repeat split; vm_compute; reflexivity. Qed.

(** The next positive multiple of one of the eight periods after a multiple
    of it. *)
Lemma next_multiple (p : N) (a b : nat) :
  p = 1000 ∨ p = 500 ∨ p = 200 ∨ p = 100 ∨ p = 50 ∨ p = 20 ∨ p = 10 ∨ p = 5 →
  N.of_nat a mod p = 0 →
  (a < b)%nat ∧ N.of_nat b mod p = 0
    ∧ (∀ c : nat, (a < c < b)%nat → N.of_nat c mod p ≠ 0)
  ↔ N.of_nat b = N.of_nat a + p.
Proof.
  intros Hp Ha. split.
  - intros (Hab & Hb & Hc). specialize (Hc (a + N.to_nat p)%nat).
    destruct Hp as [->|[->|[->|[->|[->|[->|[->| ->]]]]]]]; lia.
  - intros Hb. split; [|split].
    + destruct Hp as [->|[->|[->|[->|[->|[->|[->| ->]]]]]]]; lia.
    + destruct Hp as [->|[->|[->|[->|[->|[->|[->| ->]]]]]]]; lia.
    + intros c Hc.
      destruct Hp as [->|[->|[->|[->|[->|[->|[->| ->]]]]]]]; lia.
Qed.

(** C2: for every slot, over a run of at least 1000 calls of [task_tick]
    from the initial state, the number of calls between two consecutive
    raises of the slot's flag (and between the start and the first raise) is
    exactly the slot's entry of [task_ticks], also across the reset of the
    tick counter. *)
Theorem C2_raise_spacing (i len a b : nat) :
  (i < TASK_COUNT)%nat → (1000 ≤ len)%nat → (a < b ≤ len)%nat →
  a = 0%nat ∨ raise_at i a = true →
  next_raise i a b ↔ N.of_nat b = N.of_nat a + load task_ticks i.
Proof.
  intros Hi Hlen Hab Ha.
  assert (Ha' : N.of_nat a mod load task_ticks i = 0).
  { destruct Ha as [->|Ha]; [apply N.Div0.mod_0_l|].
    by apply raise_at_spec in Ha as [_ Ha]. }
  rewrite <- (next_multiple _ a b (task_ticks_cases i Hi) Ha').
  unfold next_raise. rewrite (raise_at_spec i b Hi).
  split.
  - intros (H1 & [_ H2] & H3). split; [done|]. split; [done|].
    intros c Hc Hm. specialize (H3 c Hc).
    assert (raise_at i c = true) as E by (apply raise_at_spec; [done|lia]).
    congruence.
  - intros (H1 & H2 & H3). split; [done|]. split; [split; [lia|done]|].
    intros c Hc. apply not_true_iff_false. intros E.
    apply raise_at_spec in E as [_ E]; [|done]. by apply (H3 c).
Qed.

Lemma C2_raise_spacing_witness :
  ((TASK_200HZ < TASK_COUNT)%nat ∧ (1000 ≤ 1005)%nat ∧ (1000 < 1005 ≤ 1005)%nat
   ∧ raise_at TASK_200HZ 1000 = true)
  ∧ (next_raise TASK_200HZ 1000 1005
     ↔ N.of_nat 1005 = N.of_nat 1000 + load task_ticks TASK_200HZ).
Proof.
  assert (H1 : (TASK_200HZ < TASK_COUNT)%nat) by (unfold TASK_200HZ, TASK_COUNT; lia).
  assert (H2 : (1000 ≤ 1005)%nat) by lia.
  assert (H3 : (1000 < 1005 ≤ 1005)%nat) by lia.
  assert (H4 : raise_at TASK_200HZ 1000 = true) by (vm_compute; reflexivity).
  split; [exact (conj H1 (conj H2 (conj H3 H4)))|].
  exact (C2_raise_spacing TASK_200HZ 1005 1000 1005 H1 H2 H3 (or_intror H4)).
Defined.




(** C4: starting from tick counter 0, after any sequence of calls of the
    entry points the tick counter is at most 999 (callbacks being assumed to
    keep it below 1000, as the entry points do); a call of [task_tick] takes
    it from 999 to 0 and otherwise adds 1; and whatever the state, the
    counter is at most 999 after a call of [task_tick]. *)
Theorem C4_tick_count_bound
    (run_cb : task_handler_cb_t → task_scheduler_t → task_scheduler_t)
    (cs : list api_call) :
  (∀ h s, tick_count s < TICK_1HZ → tick_count (run_cb h s) < TICK_1HZ) →
  tick_count scheduler = 0
  ∧ tick_count (api_run run_cb cs scheduler) ≤ TICK_1HZ - 1
  ∧ tick_count (task_tick (api_run run_cb cs scheduler)) =
      (if tick_count (api_run run_cb cs scheduler) =? TICK_1HZ - 1 then 0
       else tick_count (api_run run_cb cs scheduler) + 1)
  ∧ ∀ s, tick_count (task_tick s) ≤ TICK_1HZ - 1.
Proof.
  intros Hcb.
  assert (H : tick_count (api_run run_cb cs scheduler) < TICK_1HZ).
  { apply api_run_below_second; [done|]. by unfold scheduler, tick_count. }
  split; [done|]. split; [unfold TICK_1HZ in *; lia|]. split.
  - rewrite (task_tick_next_count _ H). unfold TICK_1HZ in *.
    destruct (N.eqb_spec (tick_count (api_run run_cb cs scheduler) + 1) 1000);
      destruct (N.eqb_spec (tick_count (api_run run_cb cs scheduler))
                  (1000 - 1)); lia.
  - intros s. pose proof (task_tick_below_second s). unfold TICK_1HZ in *. lia.
Qed.

Lemma C4_tick_count_bound_witness :
  tick_count
    (api_run (λ _ s, s) (replicate 999 CallTick ++ [CallHandler]) scheduler)
  ≤ TICK_1HZ - 1.
Proof.
  exact (proj1 (proj2 (C4_tick_count_bound (λ _ s, s)
                         (replicate 999 CallTick ++ [CallHandler])
                         (λ _ s H, H)))).
Defined.

(** ** Claims about [task_register_handler] *)

(** C6: for every slot identifier not less than [TASK_COUNT] and every
    callback value, [task_register_handler] returns and leaves the whole
    scheduler state (callback table, flags, overflow counters, tick counter)
    as it was. *)
Theorem C6_register_out_of_range_ignored (t : task_type_t)
    (h : task_handler_cb_t) (s : task_scheduler_t) :
  (TASK_COUNT ≤ t)%nat → task_register_handler t h s = s.
Proof. apply task_register_handler_out_of_range. Qed.

Lemma C6_register_out_of_range_ignored_witness :
  (TASK_COUNT ≤ 8)%nat ∧ task_register_handler 8%nat 77 scheduler = scheduler.
Proof.
  assert (H : (TASK_COUNT ≤ 8)%nat) by (unfold TASK_COUNT; lia).
  split; [exact H|].
  exact (C6_register_out_of_range_ignored 8%nat 77 scheduler H).
Defined.

(** ** Claims about [task_handler] *)

Lemma tick_n_handler_cb (n : nat) (s : task_scheduler_t) :
  handler_cb (tick_n n s) = handler_cb s.
Proof.
  revert s. induction n as [|n IH]; intros s; [done|].
  by rewrite tick_n_succ, IH, task_tick_handler_cb.
Qed.

Lemma filter_none {A : Type} (f : A → bool) (l : list A) :
  (∀ x, In x l → f x = false) → List.filter f l = [].
Proof.
  induction l as [|x l IH]; intros H; [done|].
  cbn [List.filter]. rewrite (H x) by (by left).
  apply IH. intros y Hy. apply H. by right.
Qed.

(** Every entry of [pending_calls] is a slot in range whose flag is set,
    with the pointer registered for it, which is not [NULL]. *)
Lemma pending_calls_In (s : task_scheduler_t) (i : nat)
    (h : task_handler_cb_t) :
  In (i, h) (pending_calls s) →
  (i < TASK_COUNT)%nat ∧ load (flags s) i ≠ 0
  ∧ h = load (handler_cb s) i ∧ h ≠ NULL.
Proof.
  unfold pending_calls. intros H.
  apply in_map_iff in H as (j & Ej & Hj).
  injection Ej as -> <-.
  apply filter_In in Hj as [Hj Hr]. apply in_seq in Hj.
  unfold ready in Hr. apply andb_true_iff in Hr as [H1 H2].
  apply negb_true_iff, N.eqb_neq in H1, H2.
  split; [lia|done].
Qed.

(** With callbacks that leave the scheduler alone, a slot whose pointer is
    [NULL] is not called. *)
Lemma task_handler_skips_null
    (run_cb : task_handler_cb_t → task_scheduler_t → task_scheduler_t)
    (s : task_scheduler_t) (i : nat) :
  callbacks_pure run_cb → load (handler_cb s) i = NULL →
  Forall (λ e, ev_task e ≠ i) (task_handler run_cb s).2.
Proof.
  intros Hpure Hnull. apply Forall_forall. intros e He Hi.
  destruct (task_handler_pure run_cb Hpure s) as [_ M].
  assert (Hin : In (ev_call e) (pending_calls s)).
  { rewrite <- M. by apply in_map. }
  unfold ev_call in Hin. apply pending_calls_In in Hin as (_ & _ & E & Hn).
  rewrite Hi, Hnull in E. congruence.
Qed.

(** C5: [task_handler] visits the slots by ascending index; a slot is called
    at most once per call of [task_handler]; every call it makes goes
    through a non-[NULL] pointer, the one registered for the slot, and finds
    the slot's flag already cleared.  With callbacks that do not touch the
    scheduler, the calls made are exactly those of the slots whose flag was
    set and whose pointer is not [NULL], in ascending order, and every slot's
    flag is clear afterwards (so a ready slot without callback has its flag
    cleared and nothing called). *)
Theorem C5_task_handler_dispatch
    (run_cb : task_handler_cb_t → task_scheduler_t → task_scheduler_t)
    (s : task_scheduler_t) :
  StronglySorted lt (map ev_task (task_handler run_cb s).2)
  ∧ Forall call_ok (task_handler run_cb s).2
  ∧ (callbacks_pure run_cb →
     map ev_call (task_handler run_cb s).2 = pending_calls s
     ∧ (∀ i, (i < TASK_COUNT)%nat →
             load (flags (task_handler run_cb s).1) i = 0)
     ∧ (∀ i, load (handler_cb s) i = NULL →
             Forall (λ e, ev_task e ≠ i) (task_handler run_cb s).2)).
Proof.
  destruct (dispatch_loop_trace run_cb (seq 0 TASK_COUNT) (s, []))
    as (new & E & Hsub & Hok).
  { apply Forall_forall. intros i Hi. apply in_seq in Hi. lia. }
  assert (Etr : (task_handler run_cb s).2 = new).
  { unfold task_handler, for_each_task. by rewrite E. }
  split; [|split].
  - rewrite Etr.
    eapply StronglySorted_sublist; [exact Hsub|apply StronglySorted_seq].
  - by rewrite Etr.
  - intros Hpure.
    split; [apply (task_handler_pure run_cb Hpure s)|]. split.
    + intros i Hi. rewrite (task_handler_pure_flag run_cb Hpure).
      by rewrite decide_True.
    + intros i Hi. by apply task_handler_skips_null.
Qed.

Lemma C5_task_handler_dispatch_witness :
  map ev_call
    (task_handler (λ _ s, s)
       (task_register_handler TASK_10HZ 77 (tick_n 100 scheduler))).2
  = pending_calls (task_register_handler TASK_10HZ 77 (tick_n 100 scheduler)).
Proof.
  exact (proj1 (proj2 (proj2 (C5_task_handler_dispatch (λ _ s, s)
           (task_register_handler TASK_10HZ 77 (tick_n 100 scheduler))))
         (λ _ _, eq_refl))).
Defined.

(** C7: for a slot with no registered callback, once enough calls of
    [task_tick] have raised its flag, one call of [task_handler] (callbacks
    of the other slots leaving the scheduler alone) clears the flag, calls
    nothing for the slot and does not change its overflow counter; and up to
    and including the next raise the counter stays as it was, the raise
    finding the flag clear. *)
Theorem C7_slot_without_callback
    (run_cb : task_handler_cb_t → task_scheduler_t → task_scheduler_t)
    (s : task_scheduler_t) (i n : nat) :
  callbacks_pure run_cb → wf s → (i < TASK_COUNT)%nat →
  load (handler_cb s) i = NULL →
  (1 ≤ count_raises i n s)%nat →
  load (flags (tick_n n s)) i = 1
  ∧ load (flags (task_handler run_cb (tick_n n s)).1) i = 0
  ∧ Forall (λ e, ev_task e ≠ i) (task_handler run_cb (tick_n n s)).2
  ∧ load (overflow_count (task_handler run_cb (tick_n n s)).1) i
    = load (overflow_count (tick_n n s)) i
  ∧ ∀ m, (count_raises i m (task_handler run_cb (tick_n n s)).1 ≤ 1)%nat →
         load (overflow_count
                 (tick_n m (task_handler run_cb (tick_n n s)).1)) i
         = load (overflow_count (tick_n n s)) i.
Proof.
  intros Hpure Hs Hi Hnull Hk.
  pose proof (tick_n_wf n s Hs) as Hs1.
  destruct (tick_n_slot n s i Hs Hi) as [Hf _]. cbv zeta in Hf.
  assert ((0 <? count_raises i n s)%nat = true) as Hlt
    by (apply Nat.ltb_lt; lia).
  rewrite Hlt in Hf.
  destruct (task_handler_pure_fields run_cb Hpure (tick_n n s))
    as (_ & Eo & _ & _).
  pose proof (task_handler_pure_flag run_cb Hpure (tick_n n s) i) as Ef.
  rewrite decide_True in Ef by done.
  split; [exact Hf|]. split; [exact Ef|]. split.
  { apply task_handler_skips_null; [done|]. by rewrite tick_n_handler_cb. }
  split; [by rewrite Eo|].
  intros m Hm.
  pose proof (task_handler_pure_wf run_cb Hpure _ Hs1) as Hs2.
  destruct (tick_n_slot m _ i Hs2 Hi) as [_ Hc]. cbv zeta in Hc.
  rewrite Hc, Ef, Eo. clear Hc.
  assert (Hb : load (overflow_count (tick_n n s)) i < 2 ^ 8)
    by (apply load_bound; [done|by destruct Hs1]).
  revert Hm. generalize (count_raises i m (task_handler run_cb (tick_n n s)).1).
  intros k Hm. unfold wrap8.
  destruct k as [|[|k]]; [| |lia]; cbn [Nat.ltb Nat.leb andb negb N.eqb N.of_nat];
    rewrite N.mod_small; lia.
Qed.

Lemma C7_slot_without_callback_witness :
  (1 ≤ count_raises TASK_200HZ 5 scheduler)%nat
  ∧ load (flags (task_handler (λ _ s, s) (tick_n 5 scheduler)).1) TASK_200HZ = 0.
Proof.
  assert (Hi : (TASK_200HZ < TASK_COUNT)%nat)
    by (unfold TASK_200HZ, TASK_COUNT; lia).
  assert (Hn : load (handler_cb scheduler) TASK_200HZ = NULL)
    by (vm_compute; reflexivity).
  assert (Hk : (1 ≤ count_raises TASK_200HZ 5 scheduler)%nat)
    by (vm_compute; lia).
  split; [exact Hk|].
  exact (proj1 (proj2 (C7_slot_without_callback (λ _ s, s) scheduler
                         TASK_200HZ 5 (λ _ _, eq_refl) scheduler_wf Hi Hn Hk))).
Defined.




(** A scheduler whose flags are all clear has no pending call, and
    [task_handler] has nothing to do on it. *)
Lemma pending_calls_clear (s : task_scheduler_t) :
  (∀ i, (i < TASK_COUNT)%nat → load (flags s) i = 0) → pending_calls s = [].
Proof.
  intros Hclear. unfold pending_calls. rewrite filter_none; [done|].
  intros j Hj. apply in_seq in Hj. unfold ready.
  rewrite Hclear by lia. done.
Qed.

Lemma task_handler_clear
    (run_cb : task_handler_cb_t → task_scheduler_t → task_scheduler_t)
    (s : task_scheduler_t) :
  callbacks_pure run_cb →
  (∀ i, (i < TASK_COUNT)%nat → load (flags s) i = 0) →
  task_handler run_cb s = (s, []).
Proof.
  intros Hpure Hclear.
  destruct (task_handler_pure run_cb Hpure s) as [E1 E2].
  rewrite pending_calls_clear in E2 by done.
  rewrite clear_flags_id in E1.
  2:{ intros j Hj. apply Hclear. apply elem_of_seq in Hj. lia. }
  apply map_eq_nil in E2.
  rewrite (surjective_pairing (task_handler run_cb s)). by rewrite E1, E2.
Qed.

(** C9: with callbacks that do not change the scheduler, after one call of
    [task_handler] every slot's flag is 0; a second call with no
    [task_tick] in between calls nothing and leaves the scheduler as it
    is. *)
Theorem C9_task_handler_idempotent
    (run_cb : task_handler_cb_t → task_scheduler_t → task_scheduler_t)
    (s : task_scheduler_t) :
  callbacks_pure run_cb →
  (∀ i, (i < TASK_COUNT)%nat → load (flags (task_handler run_cb s).1) i = 0)
  ∧ task_handler run_cb (task_handler run_cb s).1
    = ((task_handler run_cb s).1, []).
Proof.
  intros Hpure.
  assert (Hclear : ∀ i, (i < TASK_COUNT)%nat →
                        load (flags (task_handler run_cb s).1) i = 0).
  { intros i Hi. rewrite (task_handler_pure_flag run_cb Hpure).
    by rewrite decide_True. }
  split; [exact Hclear|]. by apply task_handler_clear.
Qed.

Lemma C9_task_handler_idempotent_witness :
  task_handler (λ _ s, s) (task_handler (λ _ s, s) (tick_n 1000 scheduler)).1
  = ((task_handler (λ _ s, s) (tick_n 1000 scheduler)).1, []).
Proof.
  exact (proj2 (C9_task_handler_idempotent (λ _ s, s) (tick_n 1000 scheduler)
                  (λ _ _, eq_refl))).
Defined.

(** C10: registering for a slot in range overwrites what was registered
    before; registering [NULL] unbinds the slot, which puts a scheduler whose
    slot was never registered back as it was; and a later call of
    [task_handler] that finds the slot's flag set clears the flag and calls
    nothing for the slot (callbacks of the other slots leaving the scheduler
    alone). *)
Theorem C10_register_null_unbinds
    (run_cb : task_handler_cb_t → task_scheduler_t → task_scheduler_t)
    (s : task_scheduler_t) (t : task_type_t) (h1 h2 : task_handler_cb_t) :
  callbacks_pure run_cb → wf s → (t < TASK_COUNT)%nat →
  load (handler_cb (task_register_handler t h1 s)) t = h1
  ∧ task_register_handler t h2 (task_register_handler t h1 s)
    = task_register_handler t h2 s
  ∧ load (handler_cb (task_register_handler t NULL
                        (task_register_handler t h1 s))) t = NULL
  ∧ (load (handler_cb s) t = NULL →
     task_register_handler t NULL (task_register_handler t h1 s) = s)
  ∧ (load (flags (task_register_handler t NULL
                    (task_register_handler t h1 s))) t ≠ 0 →
     load (flags (task_handler run_cb
                    (task_register_handler t NULL
                       (task_register_handler t h1 s))).1) t = 0
     ∧ Forall (λ e, ev_task e ≠ t)
         (task_handler run_cb
            (task_register_handler t NULL (task_register_handler t h1 s))).2).
Proof.
  intros Hpure Hs Ht.
  assert (Hlen : (t < length (handler_cb s))%nat) by (by destruct Hs as [_ _ _ ->]).
  assert (Hget : ∀ h s', (t < length (handler_cb s'))%nat →
                         load (handler_cb (task_register_handler t h s')) t = h).
  { intros h s' Hl. rewrite task_register_handler_in_range by done.
    rewrite handler_cb_set_handler_cb. by apply load_insert_eq. }
  assert (Hover : ∀ h, task_register_handler t h (task_register_handler t h1 s)
                       = task_register_handler t h s).
  { intros h. rewrite !task_register_handler_in_range by done.
    unfold set_handler_cb. autorewrite with fields.
    cbn [tick_count flags overflow_count handler_cb].
    by rewrite list_insert_insert_eq. }
  assert (Hnull : load (handler_cb (task_register_handler t NULL
                                      (task_register_handler t h1 s))) t = NULL).
  { rewrite Hover. by apply Hget. }
  split; [by apply Hget|]. split; [apply Hover|]. split; [exact Hnull|]. split.
  - intros Hnone. rewrite Hover, task_register_handler_in_range by done.
    unfold set_handler_cb. rewrite <- Hnone.
    rewrite insert_load_id by done. by destruct s.
  - intros _. split.
    + rewrite (task_handler_pure_flag run_cb Hpure). by rewrite decide_True.
    + by apply task_handler_skips_null.
Qed.

Lemma C10_register_null_unbinds_witness :
  task_register_handler TASK_10HZ NULL
    (task_register_handler TASK_10HZ 77 (tick_n 100 scheduler))
  = tick_n 100 scheduler.
Proof.
  assert (Ht : (TASK_10HZ < TASK_COUNT)%nat)
    by (unfold TASK_10HZ, TASK_COUNT; lia).
  assert (Hn : load (handler_cb (tick_n 100 scheduler)) TASK_10HZ = NULL)
    by (vm_compute; reflexivity).
  exact (proj1 (proj2 (proj2 (proj2
           (C10_register_null_unbinds (λ _ s, s) (tick_n 100 scheduler)
              TASK_10HZ 77 0 (λ _ _, eq_refl)
              (tick_n_wf 100 scheduler scheduler_wf) Ht)))) Hn).
Defined.

(** * Further properties of the scheduler *)

(** ** [task_tick] *)

Lemma count_raises_from (i m n : nat) :
  (i < TASK_COUNT)%nat →
  N.of_nat (count_raises i n (tick_n m scheduler))
    = N.of_nat (m + n) / load task_ticks i - N.of_nat m / load task_ticks i.
Proof.
  intros Hi. revert m. induction n as [|n IH]; intros m.
  - cbn [count_raises N.of_nat]. rewrite Nat.add_0_r. lia.
  - rewrite count_raises_succ.
    rewrite raised_due by (try apply tick_n_wf; try apply scheduler_wf; done).
    rewrite <- tick_n_succ_r, Nat2N.inj_add, (IH (S m)).
    unfold due. rewrite tick_count_tick_n. unfold wrap32.
    replace (S m + n)%nat with (m + S n)%nat by lia.
    pose proof (task_ticks_cases i Hi) as Hp. cbv zeta in Hp.
    generalize dependent (load task_ticks i). intros p _ Hp.
    assert (He : N.of_nat (S m) ≤ N.of_nat (m + S n)) by lia.
    revert He. generalize (N.of_nat (m + S n)). intros e He.
    destruct Hp as [->|[->|[->|[->|[->|[->|[->| ->]]]]]]];
      match goal with
      | |- context [?x =? 0] => destruct (N.eqb_spec x 0)
      end; lia.
Qed.

(** X1: from program start, [n] calls of [task_tick] raise slot [i] exactly
    [n / task_ticks[i]] times (integer division): each slot runs at its
    nominal rate, whatever the length of the run. *)
Theorem X1_raise_count (i n : nat) :
  (i < TASK_COUNT)%nat →
  N.of_nat (count_raises i n scheduler) = N.of_nat n / load task_ticks i.
Proof.
  intros Hi. pose proof (count_raises_from i 0 n Hi) as H.
  rewrite tick_n_zero in H. rewrite H. cbn [N.of_nat Nat.add].
  rewrite N.Div0.div_0_l. apply N.sub_0_r.
Qed.

Lemma X1_raise_count_witness :
  (TASK_10HZ < TASK_COUNT)%nat
  ∧ N.of_nat (count_raises TASK_10HZ 250 scheduler)
    = N.of_nat 250 / load task_ticks TASK_10HZ.
Proof.
  assert (Hi : (TASK_10HZ < TASK_COUNT)%nat)
    by (unfold TASK_10HZ, TASK_COUNT; lia).
  split; [exact Hi|]. exact (X1_raise_count TASK_10HZ 250 Hi).
Defined.

(** X2: a call of [task_tick] that raises the 1Hz slot raises every slot:
    all periods divide the one-second window, so once per second the eight
    flags are raised by the same call. *)
Theorem X2_second_boundary_raises_all (i n : nat) :
  (i < TASK_COUNT)%nat → raise_at TASK_1HZ n = true → raise_at i n = true.
Proof.
  intros Hi H1.
  apply raise_at_spec in H1 as [Hn H1]; [|unfold TASK_1HZ, TASK_COUNT; lia].
  change (load task_ticks TASK_1HZ) with 1000 in H1.
  apply raise_at_spec; [done|]. split; [done|].
  pose proof (task_ticks_cases i Hi) as Hp. cbv zeta in Hp.
  generalize dependent (load task_ticks i). intros p Hp.
  destruct Hp as [->|[->|[->|[->|[->|[->|[->| ->]]]]]]]; lia.
Qed.

Lemma X2_second_boundary_raises_all_witness :
  ((TASK_200HZ < TASK_COUNT)%nat ∧ raise_at TASK_1HZ 2000 = true)
  ∧ raise_at TASK_200HZ 2000 = true.
Proof.
  assert (Hi : (TASK_200HZ < TASK_COUNT)%nat)
    by (unfold TASK_200HZ, TASK_COUNT; lia).
  assert (H1 : raise_at TASK_1HZ 2000 = true) by (vm_compute; reflexivity).
  split; [exact (conj Hi H1)|].
  exact (X2_second_boundary_raises_all TASK_200HZ 2000 Hi H1).
Defined.

(** X3: [task_tick] never writes the callback table, never clears a flag (a
    flag either keeps its value or becomes 1, and a flag that reads 1 still
    reads 1), and changes an overflow counter only by adding 1 modulo 256 to
    the counter of a slot whose flag was already 1. *)
Theorem X3_task_tick_only_raises (s : task_scheduler_t) (i : nat) :
  wf s → (i < TASK_COUNT)%nat →
  handler_cb (task_tick s) = handler_cb s
  ∧ (load (flags (task_tick s)) i = load (flags s) i
     ∨ load (flags (task_tick s)) i = 1)
  ∧ (load (flags s) i = 1 → load (flags (task_tick s)) i = 1)
  ∧ (load (overflow_count (task_tick s)) i = load (overflow_count s) i
     ∨ (load (flags s) i = 1
        ∧ load (overflow_count (task_tick s)) i
          = wrap8 (load (overflow_count s) i + 1))).
Proof.
  intros Hs Hi.
  destruct (task_tick_slot s i Hi) as [Hf Hc]; [by destruct Hs..|].
  rewrite Hf, Hc. split; [apply task_tick_handler_cb|].
  destruct (due i s); cbn [andb].
  - split; [by right|]. split; [done|].
    destruct (N.eqb_spec (load (flags s) i) 1); [by right|by left].
  - split; [by left|]. split; [done|by left].
Qed.

Lemma X3_task_tick_only_raises_witness :
  (TASK_200HZ < TASK_COUNT)%nat
  ∧ handler_cb (task_tick (tick_n 9 scheduler)) = handler_cb (tick_n 9 scheduler).
Proof.
  assert (Hi : (TASK_200HZ < TASK_COUNT)%nat)
    by (unfold TASK_200HZ, TASK_COUNT; lia).
  split; [exact Hi|].
  exact (proj1 (X3_task_tick_only_raises (tick_n 9 scheduler) TASK_200HZ
                  (tick_n_wf 9 scheduler scheduler_wf) Hi)).
Defined.

(** ** Runs of API calls *)

Lemma ticks_in_cons (c : api_call) (cs : list api_call) :
  ticks_in (c :: cs) = ((if is_tick c then 1 else 0) + ticks_in cs)%nat.
Proof. unfold ticks_in. cbn [List.filter]. by destruct (is_tick c). Qed.

Lemma api_run_tick_count
    (run_cb : task_handler_cb_t → task_scheduler_t → task_scheduler_t)
    (cs : list api_call) (s : task_scheduler_t) :
  callbacks_pure run_cb → tick_count s < TICK_1HZ →
  tick_count (api_run run_cb cs s)
    = (tick_count s + N.of_nat (ticks_in cs)) mod 1000.
Proof.
  intros Hpure. unfold api_run. revert s.
  induction cs as [|c cs IH]; intros s Hs.
  - cbn [fold_left]. unfold ticks_in, TICK_1HZ in *. cbn [List.filter length N.of_nat].
    rewrite N.add_0_r, N.mod_small; done.
  - cbn [fold_left]. rewrite ticks_in_cons. destruct c as [| |t h]; cbn [api_step is_tick].
    + rewrite IH by apply task_tick_below_second.
      rewrite (task_tick_next_count s Hs). unfold TICK_1HZ in *.
      destruct (N.eqb_spec (tick_count s + 1) 1000); lia.
    + destruct (task_handler_pure_fields run_cb Hpure s) as (E & _).
      rewrite IH by (by rewrite E). rewrite E. f_equal.
    + destruct (task_register_handler_fields t h s) as (E & _).
      rewrite IH by (by rewrite E). rewrite E. f_equal.
Qed.

(** X4: the schedule does not drift.  Along any run of API calls from
    program start (callbacks leaving the scheduler alone), the tick counter
    is the number of [task_tick] calls made modulo 1000, and the next call of
    [task_tick] raises slot [i] exactly when the number of [task_tick] calls,
    that one included, is a multiple of the slot's period: calling
    [task_handler] late, often or never, or registering handlers, does not
    move the instants at which flags are raised. *)
Theorem X4_schedule_does_not_drift
    (run_cb : task_handler_cb_t → task_scheduler_t → task_scheduler_t)
    (cs : list api_call) (i : nat) :
  callbacks_pure run_cb → (i < TASK_COUNT)%nat →
  tick_count (api_run run_cb cs scheduler) = N.of_nat (ticks_in cs) mod 1000
  ∧ (raised i (api_run run_cb cs scheduler)
       (task_tick (api_run run_cb cs scheduler)) = true
     ↔ N.of_nat (S (ticks_in cs)) mod load task_ticks i = 0).
Proof.
  intros Hpure Hi.
  assert (E : tick_count (api_run run_cb cs scheduler)
              = N.of_nat (ticks_in cs) mod 1000).
  { rewrite (api_run_tick_count run_cb cs scheduler Hpure) by done.
    by change (tick_count scheduler) with 0. }
  split; [exact E|].
  rewrite raised_due by (try apply api_run_wf; try apply scheduler_wf; done).
  unfold due. rewrite E. unfold wrap32. rewrite N.eqb_eq.
  pose proof (task_ticks_cases i Hi) as Hp. cbv zeta in Hp.
  generalize dependent (load task_ticks i). intros p Hp.
  destruct Hp as [->|[->|[->|[->|[->|[->|[->| ->]]]]]]]; lia.
Qed.

Lemma X4_schedule_does_not_drift_witness :
  (TASK_200HZ < TASK_COUNT)%nat
  ∧ tick_count
      (api_run (λ _ s, s)
         [CallTick; CallTick; CallHandler; CallTick; CallRegister 7%nat 77;
          CallTick] scheduler)
    = N.of_nat
        (ticks_in [CallTick; CallTick; CallHandler; CallTick;
                   CallRegister 7%nat 77; CallTick]) mod 1000.
Proof.
  assert (Hi : (TASK_200HZ < TASK_COUNT)%nat)
    by (unfold TASK_200HZ, TASK_COUNT; lia).
  split; [exact Hi|].
  exact (proj1 (X4_schedule_does_not_drift (λ _ s, s)
                  [CallTick; CallTick; CallHandler; CallTick;
                   CallRegister 7%nat 77; CallTick] TASK_200HZ
                  (λ _ _, eq_refl) Hi)).
Defined.

Lemma api_run_flags_binary
    (run_cb : task_handler_cb_t → task_scheduler_t → task_scheduler_t)
    (cs : list api_call) (s : task_scheduler_t) :
  callbacks_pure run_cb → wf s →
  (∀ i, (i < TASK_COUNT)%nat → load (flags s) i ≤ 1) →
  ∀ i, (i < TASK_COUNT)%nat → load (flags (api_run run_cb cs s)) i ≤ 1.
Proof.
  intros Hpure. unfold api_run. revert s.
  induction cs as [|c cs IH]; intros s Hs Hb; [done|].
  cbn [fold_left]. apply IH; [by apply api_step_wf|].
  intros i Hi. destruct c as [| |t h]; cbn [api_step].
  - destruct (task_tick_slot s i Hi) as [-> _]; [by destruct Hs..|].
    specialize (Hb i Hi). destruct (due i s); lia.
  - rewrite (task_handler_pure_flag run_cb Hpure), decide_True by done. lia.
  - destruct (task_register_handler_fields t h s) as (_ & -> & _). auto.
Qed.

(** X5: every flag is 0 or 1 at all times: along any run of API calls from
    program start (callbacks leaving the scheduler alone) no flag holds any
    other value, so the test [flags[i] == 1] of [task_tick] and the test
    [flags[i]] of [task_handler] agree. *)
Theorem X5_flags_are_binary
    (run_cb : task_handler_cb_t → task_scheduler_t → task_scheduler_t)
    (cs : list api_call) (i : nat) :
  callbacks_pure run_cb → (i < TASK_COUNT)%nat →
  load (flags (api_run run_cb cs scheduler)) i = 0
  ∨ load (flags (api_run run_cb cs scheduler)) i = 1.
Proof.
  intros Hpure Hi.
  assert (H : load (flags (api_run run_cb cs scheduler)) i ≤ 1).
  { apply api_run_flags_binary; [done|apply scheduler_wf| |done].
    intros j Hj. unfold TASK_COUNT in Hj.
    do 8 (destruct j as [|j]; [cbv; discriminate|]). lia. }
  lia.
Qed.

Lemma X5_flags_are_binary_witness :
  (TASK_200HZ < TASK_COUNT)%nat
  ∧ (load (flags (api_run (λ _ s, s) (replicate 7 CallTick) scheduler))
          TASK_200HZ = 0
     ∨ load (flags (api_run (λ _ s, s) (replicate 7 CallTick) scheduler))
            TASK_200HZ = 1).
Proof.
  assert (Hi : (TASK_200HZ < TASK_COUNT)%nat)
    by (unfold TASK_200HZ, TASK_COUNT; lia).
  split; [exact Hi|].
  exact (X5_flags_are_binary (λ _ s, s) (replicate 7 CallTick) TASK_200HZ
           (λ _ _, eq_refl) Hi).
Defined.

(** ** [task_register_handler], continued *)

(** X6: a registration writes one entry of the callback table and nothing
    else: the entries of the other slots, the flags, the overflow counters
    and the tick counter are as they were. *)
Theorem X6_register_changes_one_entry (t : task_type_t) (h : task_handler_cb_t)
    (s : task_scheduler_t) (j : nat) :
  j ≠ t →
  load (handler_cb (task_register_handler t h s)) j = load (handler_cb s) j
  ∧ tick_count (task_register_handler t h s) = tick_count s
  ∧ flags (task_register_handler t h s) = flags s
  ∧ overflow_count (task_register_handler t h s) = overflow_count s.
Proof.
  intros Hj.
  destruct (task_register_handler_fields t h s) as (E1 & E2 & E3 & _).
  split; [|done]. unfold task_register_handler.
  destruct (t <? TASK_COUNT)%nat; [|done].
  rewrite handler_cb_set_handler_cb. by apply load_insert_ne.
Qed.

Lemma X6_register_changes_one_entry_witness :
  TASK_10HZ ≠ TASK_1HZ
  ∧ load (handler_cb (task_register_handler TASK_1HZ 77
                        (task_register_handler TASK_10HZ 55 scheduler)))
         TASK_10HZ
    = load (handler_cb (task_register_handler TASK_10HZ 55 scheduler)) TASK_10HZ.
Proof.
  assert (H : TASK_10HZ ≠ TASK_1HZ) by (unfold TASK_10HZ, TASK_1HZ; lia).
  split; [exact H|].
  exact (proj1 (X6_register_changes_one_entry TASK_1HZ 77
                  (task_register_handler TASK_10HZ 55 scheduler) TASK_10HZ H)).
Defined.

(** X7: registrations for two different slots commute, whether the slots
    are in range or not. *)
Theorem X7_register_commutes (t1 t2 : task_type_t) (h1 h2 : task_handler_cb_t)
    (s : task_scheduler_t) :
  t1 ≠ t2 →
  task_register_handler t1 h1 (task_register_handler t2 h2 s)
  = task_register_handler t2 h2 (task_register_handler t1 h1 s).
Proof.
  intros Hne. unfold task_register_handler.
  destruct (t1 <? TASK_COUNT)%nat, (t2 <? TASK_COUNT)%nat; try done.
  unfold set_handler_cb. cbn [tick_count flags overflow_count handler_cb].
  f_equal. by apply list_insert_insert_ne.
Qed.

Lemma X7_register_commutes_witness :
  TASK_1HZ ≠ TASK_10HZ
  ∧ task_register_handler TASK_1HZ 77 (task_register_handler TASK_10HZ 55 scheduler)
    = task_register_handler TASK_10HZ 55 (task_register_handler TASK_1HZ 77 scheduler).
Proof.
  assert (H : TASK_1HZ ≠ TASK_10HZ) by (unfold TASK_10HZ, TASK_1HZ; lia).
  split; [exact H|].
  exact (X7_register_commutes TASK_1HZ TASK_10HZ 77 55 scheduler H).
Defined.

(** ** [task_handler], continued *)

(** X8: whatever the callbacks do, one call of [task_handler] makes at most
    [TASK_COUNT] calls. *)
Theorem X8_task_handler_call_bound
    (run_cb : task_handler_cb_t → task_scheduler_t → task_scheduler_t)
    (s : task_scheduler_t) :
  (length (task_handler run_cb s).2 ≤ TASK_COUNT)%nat.
Proof.
  destruct (dispatch_loop_trace run_cb (seq 0 TASK_COUNT) (s, []))
    as (new & E & Hsub & _).
  { apply Forall_forall. intros i Hi. apply in_seq in Hi. lia. }
  unfold task_handler, for_each_task. rewrite E. cbn [snd app].
  apply sublist_length in Hsub.
  by rewrite length_map, length_seq in Hsub.
Qed.

(** X9: [task_handler] itself writes nothing but flags: a field among the
    tick counter, the overflow counters and the callback table that the
    callbacks leave alone is the same after [task_handler] as before. *)
Theorem X9_task_handler_writes_only_flags
    (run_cb : task_handler_cb_t → task_scheduler_t → task_scheduler_t)
    (s : task_scheduler_t) :
  ((∀ h s', tick_count (run_cb h s') = tick_count s') →
   tick_count (task_handler run_cb s).1 = tick_count s)
  ∧ ((∀ h s', overflow_count (run_cb h s') = overflow_count s') →
     overflow_count (task_handler run_cb s).1 = overflow_count s)
  ∧ ((∀ h s', handler_cb (run_cb h s') = handler_cb s') →
     handler_cb (task_handler run_cb s).1 = handler_cb s).
Proof.
  split; [|split]; intros Hcb.
  - apply (task_handler_invariant run_cb (λ s', tick_count s' = tick_count s));
      [done| |done].
    intros h s' <-. apply Hcb.
  - apply (task_handler_invariant run_cb
             (λ s', overflow_count s' = overflow_count s)); [done| |done].
    intros h s' <-. apply Hcb.
  - apply (task_handler_invariant run_cb (λ s', handler_cb s' = handler_cb s));
      [done| |done].
    intros h s' <-. apply Hcb.
Qed.

Lemma X9_task_handler_writes_only_flags_witness :
  handler_cb
    (task_handler (λ _ s, task_tick s)
       (task_register_handler TASK_200HZ 77 (tick_n 5 scheduler))).1
  = handler_cb (task_register_handler TASK_200HZ 77 (tick_n 5 scheduler)).
Proof.
  exact (proj2 (proj2 (X9_task_handler_writes_only_flags (λ _ s, task_tick s)
                         (task_register_handler TASK_200HZ 77
                            (tick_n 5 scheduler))))
           (λ _ s', task_tick_handler_cb s')).
Defined.

(** ** [task_tick] followed by [task_handler] *)

(** A call of [task_tick] from a state whose tick counter is the number of
    ticks so far modulo one second is due for slot [i] exactly when the
    number of ticks, this one included, is a multiple of the period. *)
Lemma due_after (s : task_scheduler_t) (m i : nat) :
  (i < TASK_COUNT)%nat → tick_count s = N.of_nat m mod 1000 →
  due i s = (N.of_nat (S m) mod load task_ticks i =? 0).
Proof.
  intros Hi E. unfold due, wrap32. rewrite E.
  pose proof (task_ticks_cases i Hi) as Hp. cbv zeta in Hp.
  generalize dependent (load task_ticks i). intros p Hp.
  destruct Hp as [->|[->|[->|[->|[->|[->|[->| ->]]]]]]];
    match goal with
    | |- (?x =? 0) = (?y =? 0) =>
        destruct (N.eqb_spec x 0), (N.eqb_spec y 0); [done|lia..|done]
    end.
Qed.

(** From a state with no flag pending, [task_tick] then [task_handler] serve
    exactly the slots that are due and have a callback, leave no flag
    pending and count no overflow. *)
Lemma tick_then_handle
    (run_cb : task_handler_cb_t → task_scheduler_t → task_scheduler_t)
    (s : task_scheduler_t) :
  callbacks_pure run_cb → wf s →
  (∀ i, (i < TASK_COUNT)%nat → load (flags s) i = 0) →
  (∀ i, (i < TASK_COUNT)%nat →
        load (flags (task_handler run_cb (task_tick s)).1) i = 0
        ∧ load (overflow_count (task_handler run_cb (task_tick s)).1) i
          = load (overflow_count s) i)
  ∧ handler_cb (task_handler run_cb (task_tick s)).1 = handler_cb s
  ∧ map ev_call (task_handler run_cb (task_tick s)).2
    = map (λ i, (i, load (handler_cb s) i))
        (List.filter (λ i, due i s && negb (load (handler_cb s) i =? NULL))
           (seq 0 TASK_COUNT)).
Proof.
  intros Hpure Hs Hclear.
  destruct (task_handler_pure_fields run_cb Hpure (task_tick s))
    as (_ & Eo & Eh & _).
  split; [|split].
  - intros i Hi. split.
    + rewrite (task_handler_pure_flag run_cb Hpure). by rewrite decide_True.
    + rewrite Eo. destruct (task_tick_slot s i Hi) as [_ ->]; [by destruct Hs..|].
      rewrite (Hclear i Hi). by rewrite andb_false_r.
  - by rewrite Eh, task_tick_handler_cb.
  - destruct (task_handler_pure run_cb Hpure (task_tick s)) as [_ ->].
    unfold pending_calls. rewrite task_tick_handler_cb. f_equal.
    apply List.filter_ext_in. intros i Hi. apply in_seq in Hi.
    unfold ready. rewrite task_tick_handler_cb. f_equal.
    destruct (task_tick_slot s i) as [-> _]; [lia|by destruct Hs..|].
    rewrite (Hclear i) by lia. by destruct (due i s).
Qed.

(** X10: when [task_handler] is called after every [task_tick], nothing is
    missed.  From a state with no flag pending, [task_tick] followed by
    [task_handler] (callbacks leaving the scheduler alone) calls exactly the
    callbacks of the slots that this tick makes due, in ascending slot
    order, leaves no flag pending and changes no overflow counter. *)
Theorem X10_tick_then_handle
    (run_cb : task_handler_cb_t → task_scheduler_t → task_scheduler_t)
    (s : task_scheduler_t) :
  callbacks_pure run_cb → wf s →
  (∀ i, (i < TASK_COUNT)%nat → load (flags s) i = 0) →
  (∀ i, (i < TASK_COUNT)%nat →
        load (flags (task_handler run_cb (task_tick s)).1) i = 0
        ∧ load (overflow_count (task_handler run_cb (task_tick s)).1) i
          = load (overflow_count s) i)
  ∧ handler_cb (task_handler run_cb (task_tick s)).1 = handler_cb s
  ∧ map ev_call (task_handler run_cb (task_tick s)).2
    = map (λ i, (i, load (handler_cb s) i))
        (List.filter (λ i, due i s && negb (load (handler_cb s) i =? NULL))
           (seq 0 TASK_COUNT)).
Proof. apply tick_then_handle. Qed.

Lemma X10_tick_then_handle_witness :
  map ev_call
    (task_handler (λ _ s, s)
       (task_tick (task_register_handler TASK_200HZ 77 (tick_n 4 scheduler)))).2
  = map (λ i, (i, load (handler_cb
                         (task_register_handler TASK_200HZ 77
                            (tick_n 4 scheduler))) i))
      (List.filter
         (λ i, due i (task_register_handler TASK_200HZ 77 (tick_n 4 scheduler))
               && negb (load (handler_cb
                                (task_register_handler TASK_200HZ 77
                                   (tick_n 4 scheduler))) i =? NULL))
         (seq 0 TASK_COUNT)).
Proof.
  assert (Hs : wf (task_register_handler TASK_200HZ 77 (tick_n 4 scheduler))).
  { apply task_register_handler_wf, tick_n_wf, scheduler_wf. }
  assert (Hc : ∀ i, (i < TASK_COUNT)%nat →
                    load (flags (task_register_handler TASK_200HZ 77
                                   (tick_n 4 scheduler))) i = 0).
  { intros i Hi. unfold TASK_COUNT in Hi.
    do 8 (destruct i as [|i]; [vm_compute; reflexivity|]). lia. }
  exact (proj2 (proj2 (X10_tick_then_handle (λ _ s, s)
                         (task_register_handler TASK_200HZ 77
                            (tick_n 4 scheduler))
                         (λ _ _, eq_refl) Hs Hc))).
Defined.

(** ** A callback that outlasts the period of its slot *)

Lemma set_flag_wf (j : nat) (v : N) (s : task_scheduler_t) :
  v < 2 ^ 8 → wf s → wf (set_flag j v s).
Proof.
  intros Hv [Ht Lf Lo Lh Rf Ro]. split; autorewrite with fields; try done.
  - by rewrite length_insert.
  - by apply Forall_insert_lt.
Qed.

Lemma tick_n_keeps_flag (n : nat) (s : task_scheduler_t) (i : nat) :
  wf s → (i < TASK_COUNT)%nat →
  load (flags s) i = 1 → load (flags (tick_n n s)) i = 1.
Proof.
  intros Hs Hi H1. destruct (tick_n_slot n s i Hs Hi) as [-> _].
  by destruct (0 <? count_raises i n s)%nat.
Qed.

Section Retrigger.

Variable run_cb : task_handler_cb_t → task_scheduler_t → task_scheduler_t.

(** The loop does nothing over slots whose flag is clear. *)
Lemma dispatch_loop_idle (l : list nat)
    (w : task_scheduler_t * list call_event) :
  (∀ j, In j l → load (flags w.1) j = 0) →
  fold_left (λ acc j, dispatch_slot run_cb j acc) l w = w.
Proof.
  induction l as [|j l IH]; intros H; [done|].
  cbn [fold_left].
  assert (dispatch_slot run_cb j w = w) as ->.
  { unfold dispatch_slot. rewrite (H j) by (by left). done. }
  apply IH. intros k Hk. apply H. by right.
Qed.

(** A property kept by the callbacks and by clearing the flags of the slots
    of [l] is kept by the loop over [l]. *)
Lemma dispatch_loop_invariant_on (P : task_scheduler_t → Prop) (l : list nat)
    (w : task_scheduler_t * list call_event) :
  (∀ j s, In j l → P s → P (set_flag j 0 s)) →
  (∀ h s, P s → P (run_cb h s)) →
  P w.1 → P (fold_left (λ acc j, dispatch_slot run_cb j acc) l w).1.
Proof.
  intros Hclear Hcb. revert w.
  induction l as [|i l IH]; intros w Hw; [done|].
  cbn [fold_left]. apply IH.
  { intros j s Hj. apply Hclear. by right. }
  assert (Hi : ∀ s, P s → P (set_flag i 0 s))
    by (intros s; apply Hclear; by left).
  unfold dispatch_slot.
  destruct (negb (load (flags w.1) i =? 0)); [|done].
  destruct (negb (load (handler_cb (set_flag i 0 w.1)) i =? NULL));
    cbn [fst]; auto.
Qed.

(** X11: clearing the flag before the call keeps a re-trigger.  If the
    callback of the first pending slot runs so long that its own slot is
    raised again before it returns (callbacks keeping the scheduler well
    formed and not clearing that flag, as ticks arriving during the callback
    do), the flag is still set when [task_handler] returns, so the next call
    of [task_handler] serves the slot again. *)
Theorem X11_retrigger_during_callback_kept (s : task_scheduler_t) (i : nat) :
  wf s → (i < TASK_COUNT)%nat →
  (∀ j, (j < i)%nat → load (flags s) j = 0) →
  load (flags s) i ≠ 0 → load (handler_cb s) i ≠ NULL →
  (∀ h s', wf s' →
           wf (run_cb h s')
           ∧ (load (flags s') i = 1 → load (flags (run_cb h s')) i = 1)) →
  load (flags (run_cb (load (handler_cb s) i) (set_flag i 0 s))) i = 1 →
  load (flags (task_handler run_cb s).1) i = 1.
Proof.
  intros Hs Hi Hbefore Hflag Hcb Hkeep Hagain.
  unfold task_handler. rewrite (for_each_task_split _ _ i Hi).
  rewrite (dispatch_loop_idle (seq 0 i) (s, [])).
  2:{ intros j Hj. apply in_seq in Hj. cbn [fst]. apply Hbefore. lia. }
  assert (Estep : dispatch_slot run_cb i (s, [])
                  = (run_cb (load (handler_cb s) i) (set_flag i 0 s),
                     [mk_call i (load (handler_cb s) i) (set_flag i 0 s)])).
  { unfold dispatch_slot. cbn [fst snd app]. rewrite handler_cb_set_flag.
    destruct (N.eqb_spec (load (flags s) i) 0) as [E|_]; [done|].
    destruct (N.eqb_spec (load (handler_cb s) i) NULL) as [E|_]; [done|].
    done. }
  rewrite Estep.
  apply (dispatch_loop_invariant_on
           (λ s', wf s' ∧ load (flags s') i = 1)).
  - intros j s' Hj [Hw H1]. apply in_seq in Hj. split.
    + by apply set_flag_wf.
    + rewrite flags_set_flag, load_insert_ne by lia. done.
  - intros h s' [Hw H1]. destruct (Hkeep h s' Hw) as [Hw' H1']. auto.
  - cbn [fst]. split; [|done].
    apply Hkeep. by apply set_flag_wf.
Qed.

End Retrigger.

Lemma X11_retrigger_during_callback_kept_witness :
  load (flags (task_handler (λ _ s, tick_n 5 s)
                 (task_register_handler TASK_200HZ 77 (tick_n 5 scheduler))).1)
       TASK_200HZ = 1.
Proof.
  assert (Hs : wf (task_register_handler TASK_200HZ 77 (tick_n 5 scheduler))).
  { apply task_register_handler_wf, tick_n_wf, scheduler_wf. }
  assert (Hi : (TASK_200HZ < TASK_COUNT)%nat)
    by (unfold TASK_200HZ, TASK_COUNT; lia).
  assert (Hb : ∀ j, (j < TASK_200HZ)%nat →
                    load (flags (task_register_handler TASK_200HZ 77
                                   (tick_n 5 scheduler))) j = 0).
  { intros j Hj. unfold TASK_200HZ in Hj.
    do 7 (destruct j as [|j]; [vm_compute; reflexivity|]). lia. }
  assert (Hf : load (flags (task_register_handler TASK_200HZ 77
                              (tick_n 5 scheduler))) TASK_200HZ ≠ 0)
    by (vm_compute; discriminate).
  assert (Hc : load (handler_cb (task_register_handler TASK_200HZ 77
                                   (tick_n 5 scheduler))) TASK_200HZ ≠ NULL)
    by (vm_compute; discriminate).
  assert (Hk : ∀ (h : task_handler_cb_t) s', wf s' →
                 wf (tick_n 5 s')
                 ∧ (load (flags s') TASK_200HZ = 1 →
                    load (flags (tick_n 5 s')) TASK_200HZ = 1)).
  { intros h s' Hw. split; [by apply tick_n_wf|].
    by apply tick_n_keeps_flag. }
  assert (Ha : load (flags (tick_n 5
                 (set_flag TASK_200HZ 0
                    (task_register_handler TASK_200HZ 77 (tick_n 5 scheduler)))))
               TASK_200HZ = 1).
  { vm_compute; reflexivity. }
  exact (X11_retrigger_during_callback_kept (λ _ s, tick_n 5 s)
           (task_register_handler TASK_200HZ 77 (tick_n 5 scheduler))
           TASK_200HZ Hs Hi Hb Hf Hc Hk Ha).
Defined.

(** ** main.c *)

Lemma iterate_succ_r {St : Type} (f : St → St) (n : nat) (s : St) :
  iterate f (S n) s = f (iterate f n s).
Proof.
  revert s. induction n as [|n IH]; intros s; [done|].
  rewrite (iterate_succ f (S n)), IH. by rewrite iterate_succ.
Qed.

Lemma flat_map_ev_call {B : Type} (g : task_handler_cb_t → list B)
    (tr : list call_event) :
  flat_map (λ e, g (ev_fn e)) tr = flat_map (λ p, g p.2) (map ev_call tr).
Proof.
  induction tr as [|e tr IH]; [done|].
  cbn [flat_map map]. by rewrite IH.
Qed.

Lemma pair_fst {A B : Type} (a : A) (b : B) : (a, b).1 = a.
Proof. reflexivity. Qed.

Lemma pair_snd {A B : Type} (a : A) (b : B) : (a, b).2 = b.
Proof. reflexivity. Qed.

Section MainFacts.

Variables app_1hz_handler app_10hz_handler app_100hz_handler : task_handler_cb_t.

Abbreviation setup := (main_setup app_1hz_handler app_10hz_handler app_100hz_handler).
Abbreviation pass := (main_iteration app_1hz_handler app_10hz_handler app_100hz_handler).
Abbreviation loop := (main_loop app_1hz_handler app_10hz_handler app_100hz_handler).
Abbreviation print := (app_printf app_1hz_handler app_10hz_handler app_100hz_handler).

Lemma app_run_cb_pure : callbacks_pure app_run_cb.
Proof. by intros h s. Qed.

Lemma main_loop_succ (n : nat) : loop (S n) = pass (loop n).
Proof. unfold main_loop. apply iterate_succ_r. Qed.

Lemma main_iteration_fst (w : task_scheduler_t * list String.string) :
  (pass w).1 = (task_handler app_run_cb (task_tick w.1)).1.
Proof. unfold main_iteration. cbv zeta. apply pair_fst. Qed.

Lemma main_iteration_snd (w : task_scheduler_t * list String.string) :
  (pass w).2
  = w.2 ++ flat_map (λ e, print (ev_fn e))
             (task_handler app_run_cb (task_tick w.1)).2.
Proof. unfold main_iteration. cbv zeta. apply pair_snd. Qed.

Lemma main_setup_table :
  handler_cb setup.1
  = [app_1hz_handler; NULL; NULL; app_10hz_handler; NULL; NULL;
     app_100hz_handler; NULL].
Proof. reflexivity. Qed.

Lemma main_setup_wf : wf setup.1.
Proof.
  unfold main_setup. cbn [fst].
  do 3 apply task_register_handler_wf. apply scheduler_wf.
Qed.

Lemma main_setup_clear (i : nat) :
  (i < TASK_COUNT)%nat →
  load (flags setup.1) i = 0 ∧ load (overflow_count setup.1) i = 0.
Proof.
  intros Hi. unfold TASK_COUNT in Hi.
  do 8 (destruct i as [|i]; [split; reflexivity|]). lia.
Qed.

(** What holds of the scheduler after every pass of the loop. *)
Lemma main_loop_state (n : nat) :
  wf (loop n).1
  ∧ tick_count (loop n).1 = N.of_nat n mod 1000
  ∧ handler_cb (loop n).1 = handler_cb setup.1
  ∧ ∀ i, (i < TASK_COUNT)%nat →
         load (flags (loop n).1) i = 0
         ∧ load (overflow_count (loop n).1) i = 0.
Proof.
  induction n as [|n (Hw & Ht & Hh & Hc)].
  - change (loop 0) with setup.
    split; [apply main_setup_wf|]. split; [reflexivity|]. split; [done|].
    apply main_setup_clear.
  - rewrite main_loop_succ, main_iteration_fst.
    destruct (tick_then_handle app_run_cb (loop n).1 app_run_cb_pure Hw)
      as (Hc' & Hh' & _).
    { intros i Hi. by apply Hc. }
    destruct (task_handler_pure_fields app_run_cb app_run_cb_pure
                (task_tick (loop n).1)) as (Et & _).
    split; [by apply task_handler_pure_wf, task_tick_wf|].
    split; [|split].
    + rewrite Et, task_tick_next_count by (rewrite Ht; unfold TICK_1HZ; lia).
      rewrite Ht. unfold TICK_1HZ.
      destruct (N.eqb_spec (N.of_nat n mod 1000 + 1) 1000); lia.
    + by rewrite Hh'.
    + intros i Hi. destruct (Hc' i Hi) as [E1 E2]. split; [done|].
      rewrite E2. by apply Hc.
Qed.

(** X12: the demo loop never misses a deadline.  After any number of passes
    of the loop of [main] (one [task_tick], one [task_handler]) no flag is
    pending, every overflow counter is still 0, the tick counter is the
    number of passes modulo 1000 and the callback table is the one set up
    before the loop. *)
Theorem X12_main_loop_no_overflow (n i : nat) :
  (i < TASK_COUNT)%nat →
  load (flags (main_loop app_1hz_handler app_10hz_handler app_100hz_handler n).1) i = 0
  ∧ load (overflow_count (main_loop app_1hz_handler app_10hz_handler app_100hz_handler n).1) i = 0
  ∧ tick_count (main_loop app_1hz_handler app_10hz_handler app_100hz_handler n).1 = N.of_nat n mod 1000
  ∧ handler_cb (main_loop app_1hz_handler app_10hz_handler app_100hz_handler n).1
    = [app_1hz_handler; NULL; NULL; app_10hz_handler; NULL; NULL;
       app_100hz_handler; NULL].
Proof.
  intros Hi. destruct (main_loop_state n) as (_ & Ht & Hh & Hc).
  destruct (Hc i Hi) as [E1 E2].
  split; [done|]. split; [done|]. split; [done|].
  by rewrite Hh, main_setup_table.
Qed.

Hypothesis nonnull_1hz : app_1hz_handler ≠ NULL.
Hypothesis nonnull_10hz : app_10hz_handler ≠ NULL.
Hypothesis nonnull_100hz : app_100hz_handler ≠ NULL.
Hypothesis distinct_1_10 : app_1hz_handler ≠ app_10hz_handler.
Hypothesis distinct_1_100 : app_1hz_handler ≠ app_100hz_handler.
Hypothesis distinct_10_100 : app_10hz_handler ≠ app_100hz_handler.

Lemma app_printf_1hz : print app_1hz_handler = [line_1hz].
Proof. unfold app_printf. by rewrite N.eqb_refl. Qed.

Lemma app_printf_10hz : print app_10hz_handler = [line_10hz].
Proof.
  unfold app_printf.
  destruct (N.eqb_spec app_10hz_handler app_1hz_handler); [congruence|].
  by rewrite N.eqb_refl.
Qed.

Lemma app_printf_100hz : print app_100hz_handler = [line_100hz].
Proof.
  unfold app_printf.
  destruct (N.eqb_spec app_100hz_handler app_1hz_handler); [congruence|].
  destruct (N.eqb_spec app_100hz_handler app_10hz_handler); [congruence|].
  by rewrite N.eqb_refl.
Qed.

(** What one pass of the loop writes. *)
Lemma main_loop_output_step (n : nat) :
  (loop (S n)).2
  = (loop n).2
    ++ (if N.of_nat (S n) mod 1000 =? 0 then [line_1hz] else [])
    ++ (if N.of_nat (S n) mod 100 =? 0 then [line_10hz] else [])
    ++ (if N.of_nat (S n) mod 10 =? 0 then [line_100hz] else []).
Proof.
  destruct (main_loop_state n) as (Hw & Ht & Hh & Hc).
  rewrite main_loop_succ, main_iteration_snd. f_equal.
  rewrite flat_map_ev_call.
  destruct (tick_then_handle app_run_cb (loop n).1 app_run_cb_pure Hw)
    as (_ & _ & ->).
  { intros i Hi. by apply Hc. }
  rewrite Hh, main_setup_table.
  rewrite (List.filter_ext_in _
             (λ i, match i with
                   | 0%nat => N.of_nat (S n) mod 1000 =? 0
                   | 3%nat => N.of_nat (S n) mod 100 =? 0
                   | 6%nat => N.of_nat (S n) mod 10 =? 0
                   | _ => false
                   end)).
  2:{ intros i Hi. apply in_seq in Hi. unfold TASK_COUNT in Hi.
      assert (Hd := due_after (loop n).1 n i).
      do 8 (destruct i as [|i];
            [rewrite Hd by (done || (unfold TASK_COUNT; lia));
             cbn -[N.modulo N.eqb negb];
             first [ change (negb (NULL =? NULL)) with false;
                     rewrite andb_false_r; reflexivity
                   | first [ rewrite (proj2 (N.eqb_neq _ _) nonnull_1hz)
                           | rewrite (proj2 (N.eqb_neq _ _) nonnull_10hz)
                           | rewrite (proj2 (N.eqb_neq _ _) nonnull_100hz) ];
                     cbn [negb]; rewrite andb_true_r; reflexivity ]|]).
      lia. }
  change (seq 0 TASK_COUNT) with [0; 1; 2; 3; 4; 5; 6; 7]%nat.
  destruct (N.of_nat (S n) mod 1000 =? 0), (N.of_nat (S n) mod 100 =? 0),
    (N.of_nat (S n) mod 10 =? 0);
    cbn -[app_printf];
    rewrite ?app_printf_1hz, ?app_printf_10hz, ?app_printf_100hz; reflexivity.
Qed.

(** X13: what the demo writes.  Pass number [n + 1] of the loop of [main]
    appends to standard output the 1Hz line when [n + 1] is a multiple of
    1000, then the 10Hz line when it is a multiple of 100, then the 100Hz
    line when it is a multiple of 10, and nothing else (the three handlers
    being three different functions). *)
Theorem X13_main_loop_output (n : nat) :
  (main_loop app_1hz_handler app_10hz_handler app_100hz_handler (S n)).2
  = (main_loop app_1hz_handler app_10hz_handler app_100hz_handler n).2
    ++ (if N.of_nat (S n) mod 1000 =? 0 then [line_1hz] else [])
    ++ (if N.of_nat (S n) mod 100 =? 0 then [line_10hz] else [])
    ++ (if N.of_nat (S n) mod 10 =? 0 then [line_100hz] else []).
Proof. apply main_loop_output_step. Qed.

(** X14: after [n] passes of its loop [main] has written the banner and
    [n / 1000 + n / 100 + n / 10] lines. *)
Theorem X14_main_loop_output_length (n : nat) :
  N.of_nat (length (main_loop app_1hz_handler app_10hz_handler app_100hz_handler n).2)
  = 1 + N.of_nat n / 1000 + N.of_nat n / 100 + N.of_nat n / 10.
Proof.
  induction n as [|n IH]; [reflexivity|].
  rewrite main_loop_output_step, !length_app, !Nat2N.inj_add, IH.
  destruct (N.eqb_spec (N.of_nat (S n) mod 1000) 0),
    (N.eqb_spec (N.of_nat (S n) mod 100) 0),
    (N.eqb_spec (N.of_nat (S n) mod 10) 0);
    cbn [length N.of_nat]; lia.
Qed.

End MainFacts.

Lemma X12_main_loop_no_overflow_witness :
  (TASK_200HZ < TASK_COUNT)%nat
  ∧ load (overflow_count (main_loop 1 2 3 1234).1) TASK_200HZ = 0.
Proof.
  assert (Hi : (TASK_200HZ < TASK_COUNT)%nat)
    by (unfold TASK_200HZ, TASK_COUNT; lia).
  split; [exact Hi|].
  exact (proj1 (proj2 (X12_main_loop_no_overflow 1 2 3 1234 TASK_200HZ Hi))).
Defined.

Lemma X13_main_loop_output_witness :
  (main_loop 1 2 3 100).2
  = (main_loop 1 2 3 99).2
    ++ (if N.of_nat 100 mod 1000 =? 0 then [line_1hz] else [])
    ++ (if N.of_nat 100 mod 100 =? 0 then [line_10hz] else [])
    ++ (if N.of_nat 100 mod 10 =? 0 then [line_100hz] else []).
Proof.
  assert (H1 : (1 : task_handler_cb_t) ≠ NULL) by discriminate.
  assert (H2 : (2 : task_handler_cb_t) ≠ NULL) by discriminate.
  assert (H3 : (3 : task_handler_cb_t) ≠ NULL) by discriminate.
  assert (H12 : (1 : task_handler_cb_t) ≠ 2) by discriminate.
  assert (H13 : (1 : task_handler_cb_t) ≠ 3) by discriminate.
  assert (H23 : (2 : task_handler_cb_t) ≠ 3) by discriminate.
  exact (X13_main_loop_output 1 2 3 H1 H2 H3 H12 H13 H23 99).
Defined.

Lemma X14_main_loop_output_length_witness :
  N.of_nat (length (main_loop 1 2 3 1000).2)
  = 1 + N.of_nat 1000 / 1000 + N.of_nat 1000 / 100 + N.of_nat 1000 / 10.
Proof.
  assert (H1 : (1 : task_handler_cb_t) ≠ NULL) by discriminate.
  assert (H2 : (2 : task_handler_cb_t) ≠ NULL) by discriminate.
  assert (H3 : (3 : task_handler_cb_t) ≠ NULL) by discriminate.
  assert (H12 : (1 : task_handler_cb_t) ≠ 2) by discriminate.
  assert (H13 : (1 : task_handler_cb_t) ≠ 3) by discriminate.
  assert (H23 : (2 : task_handler_cb_t) ≠ 3) by discriminate.
  exact (X14_main_loop_output_length 1 2 3 H1 H2 H3 H12 H13 H23 1000).
Defined.
